(** * vision-be: the claims pipeline of [src/utils/dataProcessor.js]

    A shallow embedding of the input normaliser, the claim aggregator, the
    metrics calculator and the projection engine, with the properties the
    specification states about them.  Further parts cover the file reader
    and the entry point [processCSVForProposal] of the same file and the
    name that the proposal route gives to the PDF file.

    JavaScript numbers are IEEE 754 binary64 values; they are modelled by
    Rocq's primitive [float], whose operations are the same round-to-nearest
    binary64 operations.  Rows are objects whose values are text, as
    [sheet_to_json] with [raw: false] produces them; they are modelled as
    finite maps from column names to strings. *)

From Stdlib Require Import ZArith Lia List Bool Ascii String Sorting.Sorted Permutation.
From Stdlib Require Import Floats.
From stdpp Require Import gmap strings list fin_maps.

Set Warnings "-inexact-float".

Local Open Scope string_scope.
Local Open Scope Z_scope.

(* ===================================================================== *)
(** * JavaScript numbers *)
(* ===================================================================== *)

Module Js.

(** ** Conversions between integers, ratios and Numbers *)

(** Round the ratio [n / d] ([0 <= n], [0 < d]) to the nearest integer,
    ties to even. *)
Definition round_half_even (n d : Z) : Z :=
  let q := n / d in
  let r := n mod d in
  match (2 * r ?= d) with
  | Lt => q
  | Gt => q + 1
  | Eq => if Z.even q then q else q + 1
  end.

(** The Number value of the non-negative ratio [n / d]: the binary64 value
    nearest to it, ties to even, [+Infinity] on overflow.  This is the
    rounding ECMA-262 prescribes for numeric literals and [parseFloat]. *)
Definition Number_of_ratio (n d : Z) : float :=
  if (n <=? 0) || (d <=? 0) then 0%float
  else
    let k := Z.log2 n - Z.log2 d in
    let ge := if 0 <=? k then d * 2 ^ k <=? n else d <=? n * 2 ^ (- k) in
    let e := Z.max (if ge then k - 52 else k - 53) (-1074) in
    let m := if 0 <=? e
             then round_half_even n (d * 2 ^ e)
             else round_half_even (n * 2 ^ (- e)) d in
    Z.ldexp (of_uint63 (Uint63.of_Z m)) e.

(** ToNumber of a mathematical integer. *)
Definition Number_of_Z (z : Z) : float :=
  match z with
  | Z0 => 0%float
  | Zpos _ => Number_of_ratio z 1
  | Zneg p => (- Number_of_ratio (Zpos p) 1)%float
  end.

Definition Number_of_nat (n : nat) : float := Number_of_Z (Z.of_nat n).

(** ** Predicates and coercions *)

Definition isNaN (x : float) : bool := is_nan x.

Definition isFinite (x : float) : bool := negb (is_nan x) && negb (is_infinity x).

(** ToBoolean on a Number: [NaN], [+0] and [-0] are falsy. *)
Definition truthy (x : float) : bool := negb (is_nan x || is_zero x).

(** [x || d] on Numbers. *)
Definition or_default (x d : float) : float := if truthy x then x else d.

(** [a > b], [a < b], [a === b] on Numbers. *)
Definition gt (a b : float) : bool := (b <? a)%float.
Definition lt (a b : float) : bool := (a <? b)%float.
Definition strict_eq (a b : float) : bool := (a =? b)%float.

(** ** The Math object *)

Definition signed (s : bool) (m : positive) : Z := if s then Zneg m else Zpos m.

(** [Math.floor]: NaN, the infinities and the zeros are fixed points; a
    value in (0,1) gives [+0]. *)
Definition Math_floor (x : float) : float :=
  match Prim2SF x with
  | S754_finite s m e =>
      if 0 <=? e then x
      else
        let n := Z.shiftr (signed s m) (- e) in
        if n =? 0 then 0%float else Number_of_Z n
  | _ => x
  end.

(** [Math.ceil(x)] is [-Math.floor(-x)] (ECMA-262, note to Math.ceil);
    a value in (-1,0) gives [-0]. *)
Definition Math_ceil (x : float) : float := (- Math_floor (- x))%float.

(** [Math.round]: nearest integer, ties towards [+Infinity]; a value in
    [-0.5, 0) gives [-0]. *)
Definition Math_round (x : float) : float :=
  match Prim2SF x with
  | S754_finite s m e =>
      if 0 <=? e then x
      else
        let k := - e in
        let n := Z.shiftr (2 * signed s m + 2 ^ k) (k + 1) in
        if n =? 0 then (if s then (-0)%float else 0%float) else Number_of_Z n
  | _ => x
  end.

(** [Math.max] and [Math.min] of two arguments: NaN if either is NaN, and
    [+0] is larger than [-0]. *)
Definition Math_max (a b : float) : float :=
  if is_nan a || is_nan b then nan
  else if (a <? b)%float then b
  else if (b <? a)%float then a
  else if get_sign a then b else a.

Definition Math_min (a b : float) : float :=
  if is_nan a || is_nan b then nan
  else if (a <? b)%float then a
  else if (b <? a)%float then b
  else if get_sign a then a else b.

(** Left-to-right sum, as [xs.reduce((sum, x) => sum + x, 0)]. *)
Definition sum (xs : list float) : float :=
  fold_left (fun acc x => (acc + x)%float) xs 0%float.

(** ** Strings *)

(** [s.includes(p)]. *)
Fixpoint includes (p s : string) : bool :=
  String.prefix p s ||
  match s with
  | EmptyString => false
  | String _ s' => includes p s'
  end.

Definition lower_ascii (c : ascii) : ascii :=
  let n := nat_of_ascii c in
  if (65 <=? n)%nat && (n <=? 90)%nat then ascii_of_nat (n + 32) else c.

(** [s.toLowerCase()], on the ASCII letters. *)
Fixpoint toLowerCase (s : string) : string :=
  match s with
  | EmptyString => EmptyString
  | String c s' => String (lower_ascii c) (toLowerCase s')
  end.

(** [xs.join(sep)]. *)
Fixpoint join (sep : string) (xs : list string) : string :=
  match xs with
  | [] => ""
  | [x] => x
  | x :: rest => x ++ sep ++ join sep rest
  end.

End Js.


(* ===================================================================== *)
(** * Input normaliser: [parseNumber] *)
(* ===================================================================== *)

Definition is_digit (c : ascii) : bool :=
  let n := nat_of_ascii c in (48 <=? n)%nat && (n <=? 57)%nat.

Definition digit_value (c : ascii) : Z := Z.of_nat (nat_of_ascii c) - 48.

(** The characters the regular expression [/[^0-9.-]/g] leaves in place. *)
Definition kept (c : ascii) : bool :=
  is_digit c || Ascii.eqb c "."%char || Ascii.eqb c "-"%char.

(** [value.toString().replace(/[^0-9.-]/g, '')] on a text value. *)
Fixpoint cleaned (s : string) : string :=
  match s with
  | EmptyString => EmptyString
  | String c s' => if kept c then String c (cleaned s') else cleaned s'
  end.

(** The longest run of decimal digits at the head of [s], and what follows. *)
Fixpoint span_digits (s : string) : list Z * string :=
  match s with
  | String c s' =>
      if is_digit c
      then let (ds, rest) := span_digits s' in (digit_value c :: ds, rest)
      else ([], s)
  | EmptyString => ([], s)
  end.

Definition decimal_value (ds : list Z) : Z :=
  List.fold_left (fun acc d => 10 * acc + d) ds 0.

(** [parseFloat] on a string over the alphabet [0-9.-].  There the longest
    prefix that is a StrDecimalLiteral is an optional minus sign, then
    digits with an optional point and further digits, or a point and
    digits; without such a prefix the result is NaN. *)
Definition parseFloat (s : string) : float :=
  let (negative, body) :=
    match s with
    | String "-"%char rest => (true, rest)
    | _ => (false, s)
    end in
  let (int_part, after) := span_digits body in
  let frac_part :=
    match after with
    | String "."%char rest => fst (span_digits rest)
    | _ => []
    end in
  match int_part, frac_part with
  | [], [] => nan
  | _, _ =>
      let magnitude :=
        Js.Number_of_ratio (decimal_value (int_part ++ frac_part))
                           (10 ^ Z.of_nat (List.length frac_part)) in
      if negative then (- magnitude)%float else magnitude
  end.

(** A property value read from a row: [None] is [undefined]. *)
Definition truthy_text (v : option string) : bool :=
  match v with
  | None => false
  | Some s => negb (String.eqb s "")
  end.

(** [parseNumber], lines 6-10. *)
Definition parseNumber (value : option string) : float :=
  match value with
  | None => 0%float
  | Some s =>
      if String.eqb s "" then 0%float
      else Js.or_default (parseFloat (cleaned s)) 0%float
  end.

(* ===================================================================== *)
(** * Data model *)
(* ===================================================================== *)

(** A RawRecord: one spreadsheet row, column name to text.  A column that
    is not in the map reads as [undefined]. *)
Abbreviation RawRecord := (gmap string string).

(** A Date object is its time value, milliseconds since the epoch as a
    Number. *)
Abbreviation Date := float (only parsing).

(** What a call completes with: a value, or a thrown TypeError. *)
Inductive Completion (A : Type) : Type :=
| Normal (a : A)
| TypeError (message : string).
Arguments Normal {A} a.
Arguments TypeError {A} message.

Module Row.
(** A NormalizedRecord: [{ ...row }] with the numeric, date and derived
    columns overwritten by typed values.  [columns] is the spread row; the
    text columns that are never overwritten (TID, Status, Pkg Code, Pkg
    Name, ...) are read from it. *)
Record t : Type := make {
  columns : RawRecord;
  Pkg_Rate : float;
  Approved_Amount : float;
  Query_Raised : float;
  Date_of_Admission : option Date;
  Date_of_Discharge : option Date;
  Payment_Date : option Date;
  Days_to_Payment : float;
  Actual_Paid_Amount : float
}.

Definition TID (r : t) : option string := columns r !! "TID".
Definition Status (r : t) : option string := columns r !! "Status".
Definition Pkg_Code (r : t) : option string := columns r !! "Pkg Code".
Definition Pkg_Name (r : t) : option string := columns r !! "Pkg Name".
End Row.

Module Component.
(** A ComponentRecord, lines 147-152. *)
Record t : Type := make {
  Pkg_Code : option string;
  Pkg_Name : option string;
  Component_Pkg_Rate : float;
  Component_Approved_Amount : float
}.
End Component.

Module Claim.
(** A Claim: the first row of its TID with the accumulators and the list
    of components, lines 136-143. *)
Record t : Type := make {
  columns : RawRecord;
  Date_of_Admission : option Date;
  Date_of_Discharge : option Date;
  Payment_Date : option Date;
  Pkg_Rate : float;
  Approved_Amount : float;
  Actual_Paid_Amount : float;
  Query_Raised : float;
  Days_to_Payment : float;
  components : list Component.t
}.

Definition TID (c : t) : option string := columns c !! "TID".
Definition Status (c : t) : option string := columns c !! "Status".
End Claim.

(* ===================================================================== *)
(** * Validation: [validateMAAClaims] *)
(* ===================================================================== *)

Inductive Validation : Type :=
| Valid
| Invalid (error : string).

Definition requiredColumns : list string :=
  ["TID"; "Patient Name"; "Hospital Name"; "Status"; "Pkg Rate"; "Approved Amount"].

(** [col in sampleRow]: the row has the column, whatever its value. *)
Definition has_column (row : RawRecord) (col : string) : bool :=
  match row !! col with
  | Some _ => true
  | None => false
  end.

Definition missingColumns (sampleRow : RawRecord) : list string :=
  List.filter (fun col => negb (has_column sampleRow col)) requiredColumns.

(** Lines 65-90. *)
Definition validateMAAClaims (data : list RawRecord) : Validation :=
  match data with
  | [] => Invalid "No data found"
  | sampleRow :: _ =>
      match missingColumns sampleRow with
      | [] => Valid
      | missing => Invalid ("Missing required columns: " ++ Js.join ", " missing)
      end
  end.

(* ===================================================================== *)
(** * Ordinary objects used as dictionaries *)
(* ===================================================================== *)

Module JsObject.

(** The properties every object created by [{}] inherits from
    [Object.prototype] (ECMA-262 20.1.3 and Annex B.2.2).  Each of them
    reads as a truthy value that has no [components] property. *)
Definition Object_prototype_properties : list string :=
  [ "constructor"; "hasOwnProperty"; "isPrototypeOf"; "propertyIsEnumerable";
    "toLocaleString"; "toString"; "valueOf"; "__proto__";
    "__defineGetter__"; "__defineSetter__"; "__lookupGetter__"; "__lookupSetter__" ].

Definition inherited (key : string) : bool :=
  existsb (String.eqb key) Object_prototype_properties.

(** An array index is a canonical numeric string: decimal digits without a
    leading zero (other than ["0"] itself) whose value is at most
    [2^32 - 2]. *)
Definition array_index (key : string) : option Z :=
  match span_digits key with
  | (d :: ds, EmptyString) =>
      if (negb (d =? 0) || (List.length ds =? 0)%nat)
         && (decimal_value (d :: ds) <=? 4294967294)
      then Some (decimal_value (d :: ds))
      else None
  | _ => None
  end.

Definition is_array_index (key : string) : bool :=
  match array_index key with Some _ => true | None => false end.

Section Properties.
Context {A : Type}.

(** The own properties, in the order of their creation. *)
Definition t : Type := list (string * A).

Inductive Lookup : Type :=
| Own (a : A)
| Inherited
| Absent.

Fixpoint get_own (o : t) (key : string) : option A :=
  match o with
  | [] => None
  | (k, a) :: rest => if String.eqb k key then Some a else get_own rest key
  end.

(** [o[key]]: an own property, else one found on the prototype. *)
Definition get (o : t) (key : string) : Lookup :=
  match get_own o key with
  | Some a => Own a
  | None => if inherited key then Inherited else Absent
  end.

(** [o[key] = a]: an existing property keeps its place, a new one is
    created last. *)
Fixpoint set (o : t) (key : string) (a : A) : t :=
  match o with
  | [] => [(key, a)]
  | (k, b) :: rest =>
      if String.eqb k key then (k, a) :: rest else (k, b) :: set rest key a
  end.

Fixpoint insert_by_index (i : Z) (p : string * A) (l : list (Z * (string * A)))
  : list (Z * (string * A)) :=
  match l with
  | [] => [(i, p)]
  | (j, q) :: rest =>
      if i <? j then (i, p) :: l else (j, q) :: insert_by_index i p rest
  end.

Definition indexed_properties (o : t) : list (Z * (string * A)) :=
  List.fold_right
    (fun p acc =>
       match array_index (fst p) with
       | Some i => insert_by_index i p acc
       | None => acc
       end) [] o.

(** OrdinaryOwnPropertyKeys: the array indices in ascending numeric
    order, then the other string keys in the order of their creation. *)
Definition own_properties (o : t) : list (string * A) :=
  List.map snd (indexed_properties o)
  ++ List.filter (fun p => negb (is_array_index (fst p))) o.

Definition keys (o : t) : list string := List.map fst (own_properties o).

(** [Object.values(o)]. *)
Definition values (o : t) : list A := List.map snd (own_properties o).
End Properties.
Arguments t A : clear implicits.
Arguments Lookup A : clear implicits.

End JsObject.

(* ===================================================================== *)
(** * The pipeline *)
(* ===================================================================== *)

(** [row['Status'] && row['Status'].includes(p)]. *)
Definition status_includes (status : option string) (p : string) : bool :=
  match status with
  | Some s => negb (String.eqb s "") && Js.includes p s
  | None => false
  end.

(** [row['Status'] && row['Status'].toLowerCase().includes(p)]. *)
Definition status_lower_includes (status : option string) (p : string) : bool :=
  match status with
  | Some s => negb (String.eqb s "") && Js.includes p (Js.toLowerCase s)
  | None => false
  end.

(** [row['Status'] && (row['Status'] === 'Claim Rejected (Supervisor)' ||
    row['Status'] === 'Claim Rejected (Analyser)')]. *)
Definition status_rejected (status : option string) : bool :=
  match status with
  | Some s => String.eqb s "Claim Rejected (Supervisor)"
              || String.eqb s "Claim Rejected (Analyser)"
  | None => false
  end.

(** [1000 * 60 * 60 * 24] and [1000 * 60 * 60 * 24 * 30]. *)
Definition ms_per_day : float := 86400000%float.
Definition ms_per_month : float := 2592000000%float.

(** [Math.floor((later - earlier) / (1000 * 60 * 60 * 24))]. *)
Definition days_between (later earlier : Date) : float :=
  Js.Math_floor ((later - earlier) / ms_per_day)%float.

Definition componentOf (row : Row.t) : Component.t :=
  {| Component.Pkg_Code := Row.Pkg_Code row;
     Component.Pkg_Name := Row.Pkg_Name row;
     Component.Component_Pkg_Rate := Row.Pkg_Rate row;
     Component.Component_Approved_Amount := Row.Approved_Amount row |}.

(** Lines 136-143: the claim a first row initialises. *)
Definition initialClaim (row : Row.t) : Claim.t :=
  {| Claim.columns := Row.columns row;
     Claim.Date_of_Admission := Row.Date_of_Admission row;
     Claim.Date_of_Discharge := Row.Date_of_Discharge row;
     Claim.Payment_Date := Row.Payment_Date row;
     Claim.Pkg_Rate := 0%float;
     Claim.Approved_Amount := 0%float;
     Claim.Actual_Paid_Amount := 0%float;
     Claim.Query_Raised := 0%float;
     Claim.Days_to_Payment := Row.Days_to_Payment row;
     Claim.components := [] |}.

(** Lines 146-161: one row added to the claim of its TID. *)
Definition addRow (c : Claim.t) (row : Row.t) : Claim.t :=
  {| Claim.columns := Claim.columns c;
     Claim.Date_of_Admission := Claim.Date_of_Admission c;
     Claim.Date_of_Discharge := Claim.Date_of_Discharge c;
     Claim.Payment_Date := Claim.Payment_Date c;
     Claim.Pkg_Rate := (Claim.Pkg_Rate c + Row.Pkg_Rate row)%float;
     Claim.Approved_Amount := (Claim.Approved_Amount c + Row.Approved_Amount row)%float;
     Claim.Actual_Paid_Amount :=
       (Claim.Actual_Paid_Amount c + Row.Actual_Paid_Amount row)%float;
     Claim.Query_Raised := Js.Math_max (Claim.Query_Raised c) (Row.Query_Raised row);
     Claim.Days_to_Payment :=
       Js.Math_max (Claim.Days_to_Payment c) (Row.Days_to_Payment row);
     Claim.components := Claim.components c ++ [componentOf row] |}.

(** The callback of the [reduce], lines 130-164.  A TID that names an
    inherited property finds a truthy [acc[tid]], skips the initialisation
    and fails on [acc[tid].components.push]. *)
Definition groupStep (acc : JsObject.t Claim.t) (row : Row.t)
  : Completion (JsObject.t Claim.t) :=
  match Row.TID row with
  | None => Normal acc
  | Some tid =>
      if String.eqb tid "" then Normal acc
      else
        match JsObject.get acc tid with
        | JsObject.Own c => Normal (JsObject.set acc tid (addRow c row))
        | JsObject.Absent => Normal (JsObject.set acc tid (addRow (initialClaim row) row))
        | JsObject.Inherited =>
            TypeError "Cannot read properties of undefined (reading 'push')"
        end
  end.

Fixpoint groupReduce (acc : JsObject.t Claim.t) (data : list Row.t)
  : Completion (JsObject.t Claim.t) :=
  match data with
  | [] => Normal acc
  | row :: rest =>
      match groupStep acc row with
      | Normal acc' => groupReduce acc' rest
      | TypeError m => TypeError m
      end
  end.

(** Lines 129-167. *)
Definition groupDataByTID (data : list Row.t) : Completion (list Claim.t) :=
  match groupReduce [] data with
  | Normal acc => Normal (JsObject.values acc)
  | TypeError m => TypeError m
  end.

Section Pipeline.

(** Lines 17-35 of [parseDate] (trimming, the custom day-month-year
    pattern and [new Date(text)]) rest on the host's date parser, whose
    accepted formats are implementation-defined; they are a parameter,
    giving the time value of a non-empty text or [None] for [null]. *)
Variable parseDateText : string -> option Date.

(** [Date.prototype.toLocaleDateString('en-IN')], host-defined. *)
Variable toLocaleDateString : Date -> string.

(** Lines 13-36; line 14 returns [null] for [undefined] and for [''] . *)
Definition parseDate (dateString : option string) : option Date :=
  match dateString with
  | None => None
  | Some s => if String.eqb s "" then None else parseDateText s
  end.

(** [row['Query Raised'] || '0']. *)
Definition text_or (v : option string) (default : string) : option string :=
  if truthy_text v then v else Some default.

(** The callback of the [map], lines 94-125. *)
Definition preprocessRow (row : RawRecord) : Row.t :=
  let approved := parseNumber (row !! "Approved Amount") in
  let discharge := parseDate (row !! "Date of Discharge") in
  let payment := parseDate (row !! "Payment Date") in
  {| Row.columns := row;
     Row.Pkg_Rate := parseNumber (row !! "Pkg Rate");
     Row.Approved_Amount := approved;
     Row.Query_Raised := parseNumber (text_or (row !! "Query Raised") "0");
     Row.Date_of_Admission := parseDate (row !! "Date of Admission");
     Row.Date_of_Discharge := discharge;
     Row.Payment_Date := payment;
     Row.Days_to_Payment :=
       if truthy_text (row !! "Days to Payment")
       then parseNumber (row !! "Days to Payment")
       else match discharge, payment with
            | Some d, Some p => Js.Math_max 0%float (days_between p d)
            | _, _ => 0%float
            end;
     Row.Actual_Paid_Amount :=
       if status_includes (row !! "Status") "Claim Paid" then approved else 0%float |}.

(** Lines 93-126. *)
Definition preprocessMAAClaims (data : list RawRecord) : list Row.t :=
  List.map preprocessRow data.

(** ** Metrics calculator *)

Record MetricsSnapshot : Type := {
  totalClaims : float;
  paidClaims : float;
  approvedClaims : float;
  rejectedClaims : float;
  pendingClaims : float;
  totalClaimValue : float;
  totalApprovedAmount : float;
  totalPaidAmount : float;
  averageClaimAmount : float;
  rejectedClaimsAmount : float;
  approvedUnpaidAmount : float;
  revenueStuckInQuery : float;
  denialRate : float;
  queryIncidence : float;
  firstPassRate : float;
  collectionEfficiency : float;
  revenueLeakageRate : float;
  highValueClaimsPercentage : float;
  avgLengthOfStay : float;
  avgDaysToPayment : float;
  claimsWithQuery : float;
  claimsWithoutQuery : float;
  minDate : option Date;
  maxDate : option Date;
  dateRangeText : string;
  denialReasons : list (string * float);
  healthScore : float;
  monthsSpan : float
}.

(** [xs.filter(p).length]. *)
Definition count {A : Type} (p : A -> bool) (xs : list A) : float :=
  Js.Number_of_nat (List.length (List.filter p xs)).

(** [xs.length]. *)
Definition size {A : Type} (xs : list A) : float :=
  Js.Number_of_nat (List.length xs).

(** [total > 0 ? (part / total) * 100 : 0]. *)
Definition percentage (part total : float) : float :=
  if Js.gt total 0%float then (part / total * 100)%float else 0%float.

(** The claims that pass [row['Date of Admission'] && row['Date of
    Discharge']], with the two dates. *)
Definition stayDates (c : Claim.t) : list (Date * Date) :=
  match Claim.Date_of_Admission c, Claim.Date_of_Discharge c with
  | Some a, Some d => [(a, d)]
  | _, _ => []
  end.

(** [date instanceof Date && !isNaN(date)]. *)
Definition validDate (d : option Date) : list Date :=
  match d with
  | Some t => if Js.isNaN t then [] else [t]
  | None => []
  end.

(** [dates.reduce((min, date) => date < min ? date : min, dates[0])] and
    its mirror image; [None] for the empty array. *)
Definition earliest (dates : list Date) : option Date :=
  match dates with
  | [] => None
  | first :: _ =>
      Some (List.fold_left (fun min date => if Js.lt date min then date else min)
                           dates first)
  end.

Definition latest (dates : list Date) : option Date :=
  match dates with
  | [] => None
  | first :: _ =>
      Some (List.fold_left (fun max date => if Js.gt date max then date else max)
                           dates first)
  end.

Definition fixedDenialReasons : list (string * float) :=
  [ ("Missing or incorrect documentation", 35%float);
    ("Authorization issues", 25%float);
    ("Coding errors", 20%float);
    ("Eligibility verification failures", 12%float);
    ("Timely filing issues", 8%float) ].

(** Line 337. *)
Definition healthScoreOf (denialRate collectionEfficiency queryIncidence : float)
  : float :=
  Js.Math_min 90%float
    ((100 - denialRate) * 0.4 + collectionEfficiency * 0.4
     + (100 - queryIncidence) * 0.2)%float.

(** Lines 175-341, on the normalised rows and the claims grouped from
    them. *)
Definition metricsOf (processedData : list Row.t) (groupedData : list Claim.t)
  : MetricsSnapshot :=
  let totalClaims := size groupedData in
  let totalClaimValue := Js.sum (List.map Claim.Pkg_Rate groupedData) in
  let totalApprovedAmount := Js.sum (List.map Claim.Approved_Amount groupedData) in
  let totalPaidAmount :=
    Js.sum (List.map Row.Approved_Amount
              (List.filter (fun row => status_includes (Row.Status row) "Claim Paid")
                           processedData)) in
  let paidClaims :=
    count (fun c => status_includes (Claim.Status c) "Claim Paid") groupedData in
  let rejectedClaims := count (fun c => status_rejected (Claim.Status c)) groupedData in
  let pendingClaims :=
    count (fun c => status_includes (Claim.Status c) "Pending") groupedData in
  let approvedClaims :=
    count (fun c => status_includes (Claim.Status c) "Approved") groupedData in
  let claimsWithQuery :=
    count (fun c => Js.gt (Claim.Query_Raised c) 0%float) groupedData in
  let claimsWithoutQuery :=
    count (fun c => Js.strict_eq (Claim.Query_Raised c) 0%float) groupedData in
  let denialRate := percentage rejectedClaims totalClaims in
  let queryIncidence := percentage claimsWithQuery totalClaims in
  let firstPassRate := percentage claimsWithoutQuery totalClaims in
  let collectionEfficiency := percentage totalPaidAmount totalApprovedAmount in
  let rejectedClaimsAmount :=
    Js.sum (List.map Row.Pkg_Rate
              (List.filter (fun row => status_rejected (Row.Status row)) processedData)) in
  let revenueLeakageRate := percentage rejectedClaimsAmount totalClaimValue in
  let approvedUnpaidAmount :=
    Js.sum (List.map Row.Approved_Amount
              (List.filter
                 (fun row => status_lower_includes (Row.Status row) "approved"
                             && status_lower_includes (Row.Status row) "supervisor")
                 processedData)) in
  let revenueStuckInQuery :=
    Js.sum (List.map Row.Pkg_Rate
              (List.filter
                 (fun row => status_lower_includes (Row.Status row) "claim query")
                 processedData)) in
  let averageClaimAmount :=
    if Js.gt totalClaims 0%float
    then Js.Math_round (totalClaimValue / totalClaims)%float
    else 0%float in
  let claimsWithDates := List.flat_map stayDates groupedData in
  let avgLengthOfStay :=
    if Js.gt (size claimsWithDates) 0%float
    then (Js.sum (List.map (fun ad => Js.Math_max 0%float (days_between (snd ad) (fst ad)))
                           claimsWithDates)
          / size claimsWithDates)%float
    else 4%float in
  let claimsWithPaymentDays :=
    List.filter (fun c => Js.truthy (Claim.Days_to_Payment c)
                          && Js.gt (Claim.Days_to_Payment c) 0%float) groupedData in
  let avgDaysToPayment :=
    if Js.gt (size claimsWithPaymentDays) 0%float
    then (Js.sum (List.map Claim.Days_to_Payment claimsWithPaymentDays)
          / size claimsWithPaymentDays)%float
    else Js.or_default avgLengthOfStay 45%float in
  let admissionDates :=
    List.flat_map (fun row => validDate (Row.Date_of_Admission row)) processedData in
  let minDate := earliest admissionDates in
  let maxDate := latest admissionDates in
  let monthsSpan :=
    match minDate, maxDate with
    | Some lo, Some hi =>
        Js.Math_max 1%float (Js.Math_ceil ((hi - lo) / ms_per_month)%float)
    | _, _ => 12%float
    end in
  let highValueClaims :=
    count (fun c => Js.gt (Claim.Pkg_Rate c) 100000%float) groupedData in
  {| totalClaims := totalClaims;
     paidClaims := paidClaims;
     approvedClaims := approvedClaims;
     rejectedClaims := rejectedClaims;
     pendingClaims := pendingClaims;
     totalClaimValue := totalClaimValue;
     totalApprovedAmount := totalApprovedAmount;
     totalPaidAmount := totalPaidAmount;
     averageClaimAmount := averageClaimAmount;
     rejectedClaimsAmount := rejectedClaimsAmount;
     approvedUnpaidAmount := approvedUnpaidAmount;
     revenueStuckInQuery := revenueStuckInQuery;
     denialRate := denialRate;
     queryIncidence := queryIncidence;
     firstPassRate := firstPassRate;
     collectionEfficiency := collectionEfficiency;
     revenueLeakageRate := revenueLeakageRate;
     highValueClaimsPercentage := percentage highValueClaims totalClaims;
     avgLengthOfStay := avgLengthOfStay;
     avgDaysToPayment := avgDaysToPayment;
     claimsWithQuery := claimsWithQuery;
     claimsWithoutQuery := claimsWithoutQuery;
     minDate := minDate;
     maxDate := maxDate;
     dateRangeText :=
       match minDate, maxDate with
       | Some lo, Some hi => toLocaleDateString lo ++ " to " ++ toLocaleDateString hi
       | _, _ => "N/A"
       end;
     denialReasons := fixedDenialReasons;
     healthScore := healthScoreOf denialRate collectionEfficiency queryIncidence;
     monthsSpan := monthsSpan |}.

(** Lines 170-342. *)
Definition calculateProposalMetrics (data : list RawRecord)
  : Completion MetricsSnapshot :=
  let processedData := preprocessMAAClaims data in
  match groupDataByTID processedData with
  | Normal groupedData => Normal (metricsOf processedData groupedData)
  | TypeError m => TypeError m
  end.

(** ** Projection engine *)

Record ROIProjection : Type := {
  denialPreventionConservative : float;
  denialPreventionExpected : float;
  denialPreventionOptimistic : float;
  collectionsConservative : float;
  collectionsExpected : float;
  collectionsOptimistic : float;
  efficiencyConservative : float;
  efficiencyExpected : float;
  efficiencyOptimistic : float;
  totalBenefitConservative : float;
  totalBenefitExpected : float;
  totalBenefitOptimistic : float;
  paybackPeriod : float;
  roiMultiple : float
}.

(** Lines 383-387, from the expected total. *)
Definition paybackMonthsOf (expectedTotal : float) : float :=
  let roiMultiple := 3.5%float in
  let investmentAmount := (expectedTotal / roiMultiple)%float in
  let monthlyBenefit := (expectedTotal / 12)%float in
  Js.Math_ceil (investmentAmount / monthlyBenefit)%float.

(** Lines 345-409. *)
Definition calculateROIProjections (metrics : MetricsSnapshot) : ROIProjection :=
  let safeClaimValue := Js.or_default (totalClaimValue metrics) 5000000%float in
  let safeRejectedAmount :=
    Js.or_default (rejectedClaimsAmount metrics) (safeClaimValue * 0.15)%float in
  let safeDenialRate := Js.or_default (denialRate metrics) 15%float in
  let safeAvgDays := Js.or_default (avgDaysToPayment metrics) 45%float in
  let targetDenialRate := 5%float in
  let potentialRecovery :=
    if Js.gt safeDenialRate targetDenialRate
    then (safeRejectedAmount * ((safeDenialRate - targetDenialRate) / safeDenialRate))%float
    else (safeRejectedAmount * 0.5)%float in
  let targetDaysToPayment := 30%float in
  let daysSaved := Js.Math_max 0%float (safeAvgDays - targetDaysToPayment)%float in
  let workingCapitalBenefit := (safeClaimValue * (daysSaved / 365) * 0.12)%float in
  let processEfficiencySavings := (safeClaimValue * 0.02)%float in
  let conservativeRecovery := (potentialRecovery * 0.6)%float in
  let expectedRecovery := (potentialRecovery * 0.8)%float in
  let optimisticRecovery := potentialRecovery in
  let conservativeTotal :=
    (conservativeRecovery + workingCapitalBenefit * 0.5
     + processEfficiencySavings * 0.5)%float in
  let expectedTotal :=
    (expectedRecovery + workingCapitalBenefit * 0.7
     + processEfficiencySavings * 0.7)%float in
  let optimisticTotal :=
    (optimisticRecovery + workingCapitalBenefit + processEfficiencySavings)%float in
  {| denialPreventionConservative := conservativeRecovery;
     denialPreventionExpected := expectedRecovery;
     denialPreventionOptimistic := optimisticRecovery;
     collectionsConservative := (workingCapitalBenefit * 0.5)%float;
     collectionsExpected := (workingCapitalBenefit * 0.7)%float;
     collectionsOptimistic := workingCapitalBenefit;
     efficiencyConservative := (processEfficiencySavings * 0.5)%float;
     efficiencyExpected := (processEfficiencySavings * 0.7)%float;
     efficiencyOptimistic := processEfficiencySavings;
     totalBenefitConservative := conservativeTotal;
     totalBenefitExpected := expectedTotal;
     totalBenefitOptimistic := optimisticTotal;
     paybackPeriod := paybackMonthsOf expectedTotal;
     roiMultiple := 3.5%float |}.

End Pipeline.

Arguments calculateProposalMetrics parseDateText toLocaleDateString data : assert.

(* ===================================================================== *)
(** * Notions the specification uses *)
(* ===================================================================== *)

(** A property of the value a call completes with; it fails for a call
    that throws. *)
Definition on_completion {A : Type} (c : Completion A) (P : A -> Prop) : Prop :=
  match c with
  | Normal a => P a
  | TypeError _ => False
  end.

(** The non-empty TIDs of the rows, in input order. *)
Definition ownTID (row : Row.t) : list string :=
  match Row.TID row with
  | Some tid => if String.eqb tid "" then [] else [tid]
  | None => []
  end.

Definition rowTIDs (data : list Row.t) : list string := List.flat_map ownTID data.

Definition hasTID (row : Row.t) : bool := truthy_text (Row.TID row).

(** The distinct elements of a list, each at its first occurrence. *)
Fixpoint firstSeen (l : list string) : list string :=
  match l with
  | [] => []
  | x :: rest => x :: List.filter (fun y => negb (String.eqb y x)) (firstSeen rest)
  end.

(** Membership of a key in a list of keys, and the keys after one more is
    seen. *)
Definition seen (key : string) (keys : list string) : bool :=
  existsb (fun k => String.eqb k key) keys.

Definition addKey (keys : list string) (key : string) : list string :=
  if seen key keys then keys else keys ++ [key].

(** The numeric value of a key that is an array index. *)
Definition index_of (key : string) : Z :=
  match JsObject.array_index key with
  | Some i => i
  | None => 0
  end.

Definition ascending (keys : list string) : Prop :=
  StronglySorted (fun a b => index_of a <= index_of b) keys.

(** The aggregator returns one claim per distinct non-empty TID, in
    first-seen order. *)
Definition groups_in_first_seen_order (data : list Row.t) : Prop :=
  exists claims,
    groupDataByTID data = Normal claims
    /\ List.map Claim.TID claims = List.map Some (firstSeen (rowTIDs data)).

(** [p] occurs in [s]. *)
Definition Substring (p s : string) : Prop :=
  exists before after, s = before ++ p ++ after.

(** Equality up to a relative tolerance: identical values, or a difference
    of at most [tol] times the magnitude of the reference value. *)
Definition tolerance_test (tol a b : float) : bool :=
  (abs (a - b) <=? tol * abs b)%float.

Definition within_tolerance (tol a b : float) : Prop :=
  a = b \/ tolerance_test tol a b = true.

Definition componentRates (c : Claim.t) : list float :=
  List.map Component.Component_Pkg_Rate (Claim.components c).




(** The four sums taken over the normalised rows. *)
Definition rowSums (m : MetricsSnapshot) : list float :=
  [ totalPaidAmount m; rejectedClaimsAmount m; approvedUnpaidAmount m;
    revenueStuckInQuery m ].

(** Row-level sum of the Approved Amount of the rows whose Status contains
    "Claim Paid". *)
Definition paidRowsTotal (rows : list Row.t) : float :=
  List.fold_left
    (fun sum row =>
       if status_includes (Row.Status row) "Claim Paid"
       then (sum + Row.Approved_Amount row)%float
       else sum)
    rows 0%float.

(** ** Binary64 notions *)

(** The mantissa of a normal binary64 value has 53 bits. *)
Definition normal_mantissa (m : positive) : Prop := 2 ^ 52 <= Zpos m < 2 ^ 53.

(** The sign of a value that is not NaN. *)
Definition has_sign (s : bool) (x : spec_float) : Prop :=
  match x with
  | S754_zero s' | S754_infinity s' | S754_finite s' _ _ => s' = s
  | S754_nan => False
  end.

(** The second half of [binary_round_aux]: rounding to nearest even, then
    renormalising. *)
Definition round_phase (sx : bool) (mrs : shr_record) (e : Z) : spec_float :=
  let '(mrs'', e'') :=
    shr_fexp prec emax (round_nearest_even (shr_m mrs) (loc_of_shr_record mrs)) e loc_Exact in
  match shr_m mrs'' with
  | Z0 => S754_zero sx
  | Zpos m => if e'' <=? emax - prec then S754_finite sx m e'' else S754_infinity sx
  | Zneg _ => S754_nan
  end.

(** C9 as the specification states it: the payback period is 4 for every
    metrics input whose expected total is positive. *)
Definition payback_is_4_for_positive_totals : Prop :=
  forall metrics : MetricsSnapshot,
    Js.gt (totalBenefitExpected (calculateROIProjections metrics)) 0%float = true ->
    paybackPeriod (calculateROIProjections metrics) = 4%float.

(* ===================================================================== *)
(** * Sample inputs *)
(* ===================================================================== *)

(** A host date parser that knows two ISO dates (UTC midnight of
    2025-01-01 and of 2025-01-10). *)
Definition sampleDateText (s : string) : option Date :=
  if String.eqb s "2025-01-01" then Some 1735689600000%float
  else if String.eqb s "2025-01-10" then Some 1736467200000%float
  else None.

Definition sampleLocaleDate (d : Date) : string := "".

Definition sampleRow (tid : string) (status rate approved : string) : RawRecord :=
  list_to_map [ ("TID", tid); ("Patient Name", "A"); ("Hospital Name", "H");
                ("Status", status); ("Pkg Rate", rate); ("Approved Amount", approved) ].

(** The single paid row of the specification's example. *)
Definition paidRow : RawRecord := sampleRow "1" "Claim Paid" "1,00,000" "1,00,000".

(** A paid row that has no TID. *)
Definition orphanPaidRow : RawRecord :=
  delete "TID" (sampleRow "" "Claim Paid" "50" "50").

(** Two rows whose TIDs are array indices, the larger one first. *)
Definition rowsTwoThenOne : list RawRecord :=
  [ sampleRow "2" "Claim Paid" "10" "10"; sampleRow "1" "Claim Paid" "20" "20" ].

(** A row whose TID names a property of [Object.prototype]. *)
Definition constructorRow : RawRecord := sampleRow "constructor" "Claim Paid" "10" "10".

(** A Pkg Rate of 310 digits. *)
Definition hugeAmount : string := "1" ++ String.concat "" (List.repeat "0" 309).
Definition hugeRow : RawRecord := sampleRow "1" "Claim Paid" hugeAmount "1".

(** A row with both dates and no explicit Days to Payment. *)
Definition datedRow : RawRecord :=
  <["Date of Discharge" := "2025-01-01"]>
    (<["Payment Date" := "2025-01-10"]> (sampleRow "7" "Claim Paid" "100" "100")).

(** A rejected claim of about 2e-322, paid after 45 days. *)
Definition tinyAmount : string := "0." ++ String.concat "" (List.repeat "0" 321) ++ "2".
Definition tinyRejectedRow : RawRecord :=
  <["Days to Payment" := "45"]>
    (sampleRow "1" "Claim Rejected (Supervisor)" tinyAmount "1").

(** The 310-digit claim, paid after 45 days. *)
Definition hugeDelayedRow : RawRecord := <["Days to Payment" := "45"]> hugeRow.

Definition sampleMetrics (data : list RawRecord) : Completion MetricsSnapshot :=
  calculateProposalMetrics sampleDateText sampleLocaleDate data.

(* ===================================================================== *)
(** * Notions for the rows of a claim *)
(* ===================================================================== *)

(** The rows that carry the TID [tid], in input order. *)
Definition rowsOf (tid : string) (data : list Row.t) : list Row.t :=
  List.filter
    (fun row => match Row.TID row with
                | Some t => String.eqb t tid
                | None => false
                end) data.

(** What lines 134-161 make of the rows of one TID: the claim its first
    row initialises, with every row, the first included, added in turn. *)
Definition claimOf (first : Row.t) (rest : list Row.t) : Claim.t :=
  List.fold_left addRow (first :: rest) (initialClaim first).

(** A claim as lines 134-161 build it from the rows of its TID, [first]
    being the first of [rows]: the columns and the dates of the first
    row, one component for each row, the amounts summed from 0, Query
    Raised the maximum from 0 and Days to Payment the maximum from the
    value of the first row. *)
Definition built_from (c : Claim.t) (first : Row.t) (rows : list Row.t) : Prop :=
  Claim.columns c = Row.columns first
  /\ Claim.Date_of_Admission c = Row.Date_of_Admission first
  /\ Claim.Date_of_Discharge c = Row.Date_of_Discharge first
  /\ Claim.Payment_Date c = Row.Payment_Date first
  /\ Claim.components c = List.map componentOf rows
  /\ Claim.Pkg_Rate c = Js.sum (List.map Row.Pkg_Rate rows)
  /\ Claim.Approved_Amount c = Js.sum (List.map Row.Approved_Amount rows)
  /\ Claim.Actual_Paid_Amount c = Js.sum (List.map Row.Actual_Paid_Amount rows)
  /\ Claim.Query_Raised c
     = List.fold_left Js.Math_max (List.map Row.Query_Raised rows) 0%float
  /\ Claim.Days_to_Payment c
     = List.fold_left Js.Math_max (List.map Row.Days_to_Payment rows)
                      (Row.Days_to_Payment first).

(** The Status column of the first row that carries [tid]. *)
Definition firstRowStatus (data : list Row.t) (tid : string) : option string :=
  match rowsOf tid data with
  | first :: _ => Row.Status first
  | [] => None
  end.

(** The components of all the properties of the accumulator. *)
Definition allComponents (acc : JsObject.t Claim.t) : list Component.t :=
  List.flat_map (fun p => Claim.components (snd p)) acc.

(** A Number that is not NaN and not below zero. *)
Definition not_negative (x : float) : Prop :=
  Js.isNaN x = false /\ Js.lt x 0%float = false.

(** ** The order of the Numbers

    A rank for every value other than NaN, such that [<] and [===] on
    Numbers are the lexicographic order and the equality of ranks; the two
    zeros share a rank. *)
Definition SFrank (x : spec_float) : Z * Z * Z :=
  match x with
  | S754_zero _ => (0, 0, 0)
  | S754_infinity s => (if s then -2 else 2, 0, 0)
  | S754_nan => (3, 0, 0)
  | S754_finite s m e => if s then (-1, - e, Zneg m) else (1, e, Zpos m)
  end.

Definition rank (x : float) : Z * Z * Z := SFrank (Prim2SF x).

Definition rank_lt (a b : Z * Z * Z) : Prop :=
  fst (fst a) < fst (fst b)
  \/ (fst (fst a) = fst (fst b)
      /\ (snd (fst a) < snd (fst b)
          \/ (snd (fst a) = snd (fst b) /\ snd a < snd b))).

Definition rank_eq (a b : Z * Z * Z) : Prop :=
  fst (fst a) = fst (fst b) /\ snd (fst a) = snd (fst b) /\ snd a = snd b.

(* ===================================================================== *)
(** * The file reader and the pipeline: [parseCSVFile], [processCSVForProposal] *)
(* ===================================================================== *)

(** A call that returns a value or throws an error with a message. *)
Inductive Outcome (A : Type) : Type :=
| Returned (a : A)
| Thrown (message : string).
Arguments Returned {A} a.
Arguments Thrown {A} message.

(** Lines 39-62.  Lines 42-52 read the file and convert its first sheet
    with the xlsx library; what they come to, the rows of the sheet or the
    error thrown on the way, is the argument.  The error of line 55 is
    thrown inside the [try], so the [catch] of lines 59-61 wraps it like
    any other. *)
Definition parseCSVFile (sheet : Outcome (list RawRecord))
  : Outcome (list RawRecord) :=
  let tried :=
    match sheet with
    | Returned jsonData =>
        match jsonData with
        | [] => Thrown "No data found in the file"
        | _ :: _ => Returned jsonData
        end
    | Thrown message => Thrown message
    end in
  match tried with
  | Returned jsonData => Returned jsonData
  | Thrown message => Thrown ("Failed to parse CSV file: " ++ message)
  end.

(** What [processCSVForProposal] resolves to: [{ success: true, metrics,
    roiProjections, ... }] or [{ success: false, error }].  The third
    property of a success, [templateData] (lines 489-598), holds display
    strings formatted from the other two and is not part of this record. *)
Inductive ProposalData : Type :=
| Success (metrics : MetricsSnapshot) (roiProjections : ROIProjection)
| Failure (error : string).

(** [if (!x || x === 0) x = d], lines 427-432. *)
Definition default_if_missing (x d : float) : float :=
  if negb (Js.truthy x) || Js.strict_eq x 0%float then d else x.

(** Lines 427-432: the two assignments to the metrics object. *)
Definition withDefaults (m : MetricsSnapshot) : MetricsSnapshot :=
  {| totalClaims := totalClaims m;
     paidClaims := paidClaims m;
     approvedClaims := approvedClaims m;
     rejectedClaims := rejectedClaims m;
     pendingClaims := pendingClaims m;
     totalClaimValue := totalClaimValue m;
     totalApprovedAmount := totalApprovedAmount m;
     totalPaidAmount := totalPaidAmount m;
     averageClaimAmount := default_if_missing (averageClaimAmount m) 50000%float;
     rejectedClaimsAmount := rejectedClaimsAmount m;
     approvedUnpaidAmount := approvedUnpaidAmount m;
     revenueStuckInQuery := revenueStuckInQuery m;
     denialRate := denialRate m;
     queryIncidence := queryIncidence m;
     firstPassRate := firstPassRate m;
     collectionEfficiency := collectionEfficiency m;
     revenueLeakageRate := revenueLeakageRate m;
     highValueClaimsPercentage := highValueClaimsPercentage m;
     avgLengthOfStay := avgLengthOfStay m;
     avgDaysToPayment := default_if_missing (avgDaysToPayment m) 45%float;
     claimsWithQuery := claimsWithQuery m;
     claimsWithoutQuery := claimsWithoutQuery m;
     minDate := minDate m;
     maxDate := maxDate m;
     dateRangeText := dateRangeText m;
     denialReasons := denialReasons m;
     healthScore := healthScore m;
     monthsSpan := monthsSpan m |}.

Section Proposal.

Variable parseDateText : string -> option Date.
Variable toLocaleDateString : Date -> string.

(** Lines 412-435 and 600-612: every error thrown on the way is caught
    and its message returned. *)
Definition processCSVForProposal (sheet : Outcome (list RawRecord))
  : ProposalData :=
  match parseCSVFile sheet with
  | Thrown message => Failure message
  | Returned rawData =>
      match validateMAAClaims rawData with
      | Invalid error => Failure error
      | Valid =>
          match calculateProposalMetrics parseDateText toLocaleDateString rawData with
          | TypeError message => Failure message
          | Normal metrics =>
              let metrics := withDefaults metrics in
              Success metrics (calculateROIProjections metrics)
          end
      end
  end.

End Proposal.

(* ===================================================================== *)
(** * Text of the proposal: [truncateText] and the name of the PDF file *)
(* ===================================================================== *)

(** A JavaScript string as the sequence of its UTF-16 code units. *)
Definition CodeUnits : Type := list N.

(** The code units of a string of ASCII characters. *)
Definition units (s : string) : CodeUnits :=
  List.map N_of_ascii (list_ascii_of_string s).

(** [text || fallback] on strings: the empty string is falsy, and so is
    [undefined], written [None]. *)
Definition text_or_default (text : option CodeUnits) (fallback : CodeUnits)
  : CodeUnits :=
  match text with
  | Some (u :: rest) => u :: rest
  | Some [] | None => fallback
  end.

(** [truncateText], lines 466-469 of dataProcessor.js, on a string and an
    integer.  [substring(0, n)] takes [n] as 0 when it is negative and
    stops at the end of the string. *)
Definition truncateText (text : CodeUnits) (maxLength : Z) : CodeUnits :=
  if match text with [] => true | _ :: _ => false end
     || (Z.of_nat (List.length text) <=? maxLength)
  then text
  else (List.firstn (Z.to_nat (maxLength - 3)) text ++ units "...")%list.

(** The request parameters that lines 491-495 read: strings, or
    [undefined]. *)
Record AdditionalParams : Type := {
  hospitalName : option CodeUnits;
  hospitalLocation : option CodeUnits;
  contactPerson : option CodeUnits;
  email : option CodeUnits;
  title : option CodeUnits
}.

(** The "Basic info" texts of [templateData], lines 491-495. *)
Record BasicInfo : Type := {
  templateHospitalName : CodeUnits;
  templateHospitalLocation : CodeUnits;
  templateContactPerson : CodeUnits;
  templateEmail : CodeUnits;
  templateTitle : CodeUnits
}.

Definition basicInfo (additionalParams : AdditionalParams) : BasicInfo :=
  {| templateHospitalName :=
       truncateText (text_or_default (hospitalName additionalParams) (units "Hospital")) 40;
     templateHospitalLocation :=
       truncateText
         (text_or_default (hospitalLocation additionalParams)
            (text_or_default (hospitalName additionalParams) (units "Hospital")
             ++ units ", Location")%list) 60;
     templateContactPerson :=
       truncateText (text_or_default (contactPerson additionalParams) []) 30;
     templateEmail := truncateText (text_or_default (email additionalParams) []) 40;
     templateTitle := truncateText (text_or_default (title additionalParams) []) 30 |}.

(** ** The route [POST /generate], lines 108-111 of the proposal route *)









(* ===================================================================== *)
(** * Further sample inputs *)
(* ===================================================================== *)

(** Three rows, the first and the last of one TID. *)
Definition rowsSharedTID : list RawRecord :=
  [ sampleRow "A7" "Claim Paid" "10" "10"; sampleRow "B9" "Pending" "20" "0";
    sampleRow "A7" "Claim Rejected (Analyser)" "30" "5" ].

(** Three rows of three TIDs, the first and the last with a Date of
    Admission, the later date first. *)
Definition admittedRows : list RawRecord :=
  [ <["Date of Admission" := "2025-01-10"]> (sampleRow "A7" "Claim Paid" "10" "10");
    sampleRow "B9" "Pending" "20" "0";
    <["Date of Admission" := "2025-01-01"]> (sampleRow "C3" "Claim Paid" "30" "30") ].

(** Two rows of one TID with a Query Raised of 2 and of 0, and a row of
    another TID without the column. *)
Definition queriedRows : list RawRecord :=
  [ <["Query Raised" := "2"]> (sampleRow "A7" "Claim Paid" "10" "10");
    <["Query Raised" := "0"]> (sampleRow "A7" "Claim Paid" "20" "20");
    sampleRow "B9" "Pending" "20" "0" ].

(* ===================================================================== *)
(** * Properties of the text helpers *)
(* ===================================================================== *)

Lemma prefix_append (p s : string) :
  String.prefix p s = true <-> exists rest, s = p ++ rest.
Proof.
  revert s; induction p as [|c p IH]; intros s; simpl.
  - split; [exists s; reflexivity | destruct s; reflexivity].
  - destruct s as [|d s]; simpl.
    + split; [discriminate | intros [rest H]; discriminate].
    + destruct (Ascii.ascii_dec c d) as [->|Hne].
      * rewrite IH. split; intros [rest H]; exists rest.
        -- now rewrite H.
        -- now inversion H.
      * split; [discriminate | intros [rest H]; inversion H; congruence].
Qed.

Lemma includes_nil (p : string) : Js.includes p "" = String.prefix p "".
Proof. simpl. apply orb_false_r. Qed.

Lemma includes_cons (p : string) (c : ascii) (s : string) :
  Js.includes p (String c s) = String.prefix p (String c s) || Js.includes p s.
Proof. reflexivity. Qed.

(** [includes] decides the occurrence of a substring. *)
Lemma includes_Substring (p s : string) :
  Js.includes p s = true <-> Substring p s.
Proof.
  induction s as [|c s IH].
  - rewrite includes_nil, prefix_append. split.
    + intros [rest H]. exists "", rest. exact H.
    + intros (before & after & H). destruct before as [|d before].
      * now exists after.
      * inversion H.
  - rewrite includes_cons, orb_true_iff, prefix_append, IH. split.
    + intros [[rest H] | (before & after & H)].
      * exists "", rest. exact H.
      * exists (String c before), after. rewrite H. reflexivity.
    + intros (before & after & H). destruct before as [|d before].
      * left. now exists after.
      * right. inversion H; subst. now exists before, after.
Qed.

Lemma status_includes_Some (s p : string) :
  p <> "" -> status_includes (Some s) p = Js.includes p s.
Proof.
  intros Hp. unfold status_includes.
  destruct (String.eqb_spec s "") as [->|Hs]; simpl; [|reflexivity].
  destruct p; [contradiction | reflexivity].
Qed.

Lemma cleaned_chars (s : string) :
  list_ascii_of_string (cleaned s) = List.filter kept (list_ascii_of_string s).
Proof.
  induction s as [|c s IH]; simpl; [reflexivity|].
  destruct (kept c); simpl; now rewrite IH.
Qed.

Lemma cleaned_idempotent (s : string) : cleaned (cleaned s) = cleaned s.
Proof.
  induction s as [|c s IH]; simpl; [reflexivity|].
  destruct (kept c) eqn:Hc; simpl; [rewrite Hc, IH|]; auto.
Qed.

Lemma cleaned_without_digit (s : string) :
  (forall c, In c (list_ascii_of_string s) -> is_digit c = false) ->
  forall c, In c (list_ascii_of_string (cleaned s)) -> is_digit c = false.
Proof.
  intros H c. rewrite cleaned_chars, filter_In. intros [Hin _]. auto.
Qed.

Lemma span_digits_without_digit (s : string) :
  (forall c, In c (list_ascii_of_string s) -> is_digit c = false) ->
  span_digits s = ([], s).
Proof.
  destruct s as [|c s]; simpl; [reflexivity|].
  intros H. now rewrite (H c (or_introl eq_refl)).
Qed.

Lemma parseFloat_without_digit (s : string) :
  (forall c, In c (list_ascii_of_string s) -> is_digit c = false) ->
  parseFloat s = nan.
Proof.
  intros H. unfold parseFloat.
  assert (Hbody : forall t, (forall c, In c (list_ascii_of_string t) -> is_digit c = false) ->
            (let (int_part, after) := span_digits t in
             let frac_part := match after with
                              | String "."%char rest => fst (span_digits rest)
                              | _ => []
                              end in
             match int_part, frac_part with
             | [], [] => nan
             | _, _ => (if true then nan else nan)
             end) = nan
            /\ fst (span_digits t) = []
            /\ match snd (span_digits t) with
               | String "."%char rest => fst (span_digits rest)
               | _ => []
               end = []).
  { intros t Ht. rewrite (span_digits_without_digit t Ht). simpl.
    destruct t as [|c t]; [auto|].
    destruct (Ascii.ascii_dec c "."%char) as [->|Hne].
    - rewrite (span_digits_without_digit t); [auto|].
      intros c Hc. apply Ht. now right.
    - assert (E : match String c t with
                  | String "."%char rest => fst (span_digits rest)
                  | _ => @nil Z
                  end = []).
      { destruct c as [[] [] [] [] [] [] [] []]; try reflexivity. now contradiction Hne. }
      now rewrite E. }
  destruct s as [|c s].
  - reflexivity.
  - destruct (Ascii.ascii_dec c "-"%char) as [->|Hne].
    + destruct (Hbody s) as (_ & H1 & H2).
      { intros c Hc. apply H. now right. }
      destruct (span_digits s) as [ip after]; simpl in *. subst ip. now rewrite H2.
    + assert (E : (match String c s with
                   | String "-"%char rest => (true, rest)
                   | _ => (false, String c s)
                   end) = (false, String c s)).
      { destruct c as [[] [] [] [] [] [] [] []]; try reflexivity. now contradiction Hne. }
      rewrite E. destruct (Hbody (String c s) H) as (_ & H1 & H2).
      destruct (span_digits (String c s)) as [ip after]; simpl in *. subst ip.
      now rewrite H2.
Qed.

(* ===================================================================== *)
(** * parseNumber *)
(* ===================================================================== *)

(** C7.  [parseNumber] is total and never yields NaN; its result depends
    only on the characters of [0-9.-] in the value, which are what
    [cleaned] keeps; an undefined, empty or digit-free value gives 0; and
    the three sample values parse to 123456, 0 and 0. *)
Theorem parseNumber_total :
  (forall value, is_nan (parseNumber value) = false)
  /\ (forall s, list_ascii_of_string (cleaned s)
                = List.filter kept (list_ascii_of_string s))
  /\ (forall s, s <> "" ->
                parseNumber (Some s) = Js.or_default (parseFloat (cleaned s)) 0%float)
  /\ (forall s, parseNumber (Some s) = parseNumber (Some (cleaned s)))
  /\ (forall s, (forall c, In c (list_ascii_of_string s) -> is_digit c = false) ->
                parseNumber (Some s) = 0%float)
  /\ parseNumber None = 0%float
  /\ parseNumber (Some "") = 0%float
  /\ parseNumber (Some "₹1,23,456.00") = 123456%float
  /\ parseNumber (Some "abc") = 0%float.
Proof.
  repeat split.
  - intros [s|]; simpl; [|reflexivity].
    destruct (String.eqb s ""); [reflexivity|].
    unfold Js.or_default, Js.truthy.
    destruct (is_nan (parseFloat (cleaned s))) eqn:Hnan; simpl; [reflexivity|].
    destruct (is_zero (parseFloat (cleaned s))); simpl; [reflexivity | exact Hnan].
  - apply cleaned_chars.
  - intros s Hs. unfold parseNumber.
    destruct (String.eqb_spec s ""); [contradiction | reflexivity].
  - intros s. unfold parseNumber. rewrite cleaned_idempotent.
    destruct (String.eqb_spec s "") as [->|Hs]; [reflexivity|].
    destruct (String.eqb_spec (cleaned s) "") as [->|Hc]; reflexivity.
  - intros s H. unfold parseNumber.
    destruct (String.eqb s ""); [reflexivity|].
    rewrite parseFloat_without_digit by now apply cleaned_without_digit.
    reflexivity.
Qed.

(** A value without any digit parses to 0. *)
Lemma parseNumber_total_witness : parseNumber (Some "n/a - pending") = 0%float.
Proof.
  apply (proj1 (proj2 (proj2 (proj2 (proj2 parseNumber_total))))).
  intros c Hc. vm_compute in Hc.
  repeat (destruct Hc as [<-|Hc]; [reflexivity|]). destruct Hc.
Defined.

(* ===================================================================== *)
(** * validateMAAClaims *)
(* ===================================================================== *)

Lemma has_column_true (row : RawRecord) (col : string) :
  has_column row col = true <-> is_Some (row !! col).
Proof.
  unfold has_column. destruct (row !! col) as [v|].
  - split; [intros _; now exists v | reflexivity].
  - split; [discriminate | intros [v Hv]; discriminate].
Qed.

Lemma In_missingColumns (row : RawRecord) (col : string) :
  In col (missingColumns row) <-> In col requiredColumns /\ row !! col = None.
Proof.
  unfold missingColumns. rewrite filter_In. unfold has_column.
  destruct (row !! col); simpl; intuition congruence.
Qed.

Lemma missingColumns_nil (row : RawRecord) :
  missingColumns row = [] <-> Forall (fun col => is_Some (row !! col)) requiredColumns.
Proof.
  rewrite List.Forall_forall. split.
  - intros Hnil col Hin. destruct (row !! col) as [v|] eqn:Hcol; [now exists v|].
    assert (Hm : In col (missingColumns row)) by now apply In_missingColumns.
    rewrite Hnil in Hm. destruct Hm.
  - intros Hall. destruct (missingColumns row) as [|col rest] eqn:Hm; [reflexivity|].
    assert (Hin : In col (missingColumns row)) by (rewrite Hm; now left).
    apply In_missingColumns in Hin. destruct Hin as [Hreq Hnone].
    destruct (Hall col Hreq) as [v Hv]. congruence.
Qed.

(** C5.  Validation fails with "No data found" on the empty sequence; on a
    non-empty one it succeeds exactly when the first record has the six
    required columns, and otherwise fails with "Missing required columns: "
    followed by the missing column names, which is never the message of
    the empty input; a first record that lacks only TID gives "Missing
    required columns: TID". *)
Theorem validateMAAClaims_spec :
  validateMAAClaims [] = Invalid "No data found"
  /\ (forall row rest,
        validateMAAClaims (row :: rest) = Valid
        <-> Forall (fun col => is_Some (row !! col)) requiredColumns)
  /\ (forall row rest,
        ~ Forall (fun col => is_Some (row !! col)) requiredColumns ->
        exists missing,
          validateMAAClaims (row :: rest)
          = Invalid ("Missing required columns: " ++ Js.join ", " missing)
          /\ missing <> []
          /\ (forall col, In col missing <-> In col requiredColumns /\ row !! col = None)
          /\ "Missing required columns: " ++ Js.join ", " missing <> "No data found")
  /\ (forall row rest,
        row !! "TID" = None ->
        (forall col, In col requiredColumns -> col <> "TID" -> is_Some (row !! col)) ->
        validateMAAClaims (row :: rest) = Invalid "Missing required columns: TID").
Proof.
  split; [reflexivity|]. split; [|split].
  - intros row rest. rewrite <- missingColumns_nil. unfold validateMAAClaims.
    destruct (missingColumns row); split; congruence.
  - intros row rest Hnot. exists (missingColumns row).
    assert (Hne : missingColumns row <> []) by (rewrite missingColumns_nil; exact Hnot).
    split; [|split; [|split]].
    + unfold validateMAAClaims. destruct (missingColumns row); congruence.
    + exact Hne.
    + apply In_missingColumns.
    + discriminate.
  - intros row rest Htid Hothers.
    assert (Hm : missingColumns row = ["TID"]).
    { unfold missingColumns, requiredColumns. simpl. unfold has_column at 1. rewrite Htid. simpl.
      repeat match goal with
             | |- context [has_column row ?c] =>
                 let H := fresh in
                 assert (H : has_column row c = true)
                   by (apply has_column_true, Hothers; [simpl; tauto | discriminate]);
                 rewrite H; clear H
             end.
      reflexivity. }
    unfold validateMAAClaims. rewrite Hm. reflexivity.
Qed.

(** The theorem applied to a first record without TID. *)
Lemma validateMAAClaims_spec_witness :
  validateMAAClaims [orphanPaidRow; paidRow] = Invalid "Missing required columns: TID".
Proof.
  apply (proj2 (proj2 (proj2 validateMAAClaims_spec))).
  - vm_compute. reflexivity.
  - intros col Hin Hne. simpl in Hin.
    destruct Hin as [<-|[<-|[<-|[<-|[<-|[<-|[]]]]]]];
      first [ now contradiction Hne | vm_compute; eexists; reflexivity ].
Defined.

(* ===================================================================== *)
(** * Order and classification of binary64 values *)
(* ===================================================================== *)

Lemma SFcompare_antisym (x y : spec_float) :
  SFcompare y x = option_map CompOpp (SFcompare x y).
Proof.
  destruct x as [[]|[]| |[] mx ex], y as [[]|[]| |[] my ey]; simpl; try reflexivity;
    rewrite (Z.compare_antisym ex ey); destruct (ex ?= ey); simpl; try reflexivity;
    rewrite (eq_sym (Pos.compare_cont_antisym mx my Eq) : Pos.compare_cont Eq my mx = _);
    destruct (Pos.compare_cont Eq mx my); reflexivity.
Qed.

Lemma ltb_asym (a b : float) : (a <? b)%float = true -> (b <? a)%float = false.
Proof.
  rewrite !ltb_spec. unfold SFltb. rewrite (SFcompare_antisym (Prim2SF a) (Prim2SF b)).
  destruct (SFcompare (Prim2SF a) (Prim2SF b)) as [[]|]; simpl; congruence.
Qed.

Lemma ltb_irrefl (a : float) : (a <? a)%float = false.
Proof.
  destruct (a <? a)%float eqn:H; [|reflexivity].
  now rewrite (ltb_asym a a H) in H.
Qed.

Lemma is_nan_Prim2SF (x : float) : is_nan x = true -> Prim2SF x = S754_nan.
Proof. intros H. unfold Prim2SF. now rewrite H. Qed.

Lemma ltb_nan_l (x y : float) : is_nan x = true -> (x <? y)%float = false.
Proof. intros H. rewrite ltb_spec, (is_nan_Prim2SF x H). reflexivity. Qed.

Lemma ltb_nan_r (x y : float) : is_nan y = true -> (x <? y)%float = false.
Proof.
  intros H. rewrite ltb_spec, (is_nan_Prim2SF y H). unfold SFltb.
  destruct (Prim2SF x); reflexivity.
Qed.

(** [Math.max] never falls below its first argument, nor [Math.min] above
    it. *)
Lemma Math_max_not_below (a x : float) : (Js.Math_max a x <? a)%float = false.
Proof.
  unfold Js.Math_max.
  destruct (is_nan a || is_nan x) eqn:Hnan; [apply ltb_nan_l; reflexivity|].
  destruct (a <? x)%float eqn:Hax; [now apply ltb_asym|].
  destruct (x <? a)%float eqn:Hxa; [apply ltb_irrefl|].
  destruct (get_sign a); [exact Hxa | apply ltb_irrefl].
Qed.

Lemma Math_min_not_above (a x : float) : (a <? Js.Math_min a x)%float = false.
Proof.
  unfold Js.Math_min.
  destruct (is_nan a || is_nan x) eqn:Hnan.
  - apply ltb_nan_r. reflexivity.
  - destruct (a <? x)%float eqn:Hax; [apply ltb_irrefl|].
    destruct (x <? a)%float eqn:Hxa; [exact Hax|].
    destruct (get_sign a); [apply ltb_irrefl | exact Hax].
Qed.

Lemma Math_min_below (a x : float) :
  (x <? a)%float = true -> Js.Math_min a x = x.
Proof.
  intros H. unfold Js.Math_min.
  destruct (is_nan a) eqn:Ha; [now rewrite (ltb_nan_r x a Ha) in H|].
  destruct (is_nan x) eqn:Hx; [now rewrite (ltb_nan_l x a Hx) in H|].
  simpl. now rewrite (ltb_asym x a H), H.
Qed.

Lemma Math_min_above (a x : float) :
  (a <? x)%float = true -> Js.Math_min a x = a.
Proof.
  intros H. unfold Js.Math_min.
  destruct (is_nan a) eqn:Ha; [now rewrite (ltb_nan_l a x Ha) in H|].
  destruct (is_nan x) eqn:Hx; [now rewrite (ltb_nan_r a x Hx) in H|].
  simpl. now rewrite H.
Qed.

(* ===================================================================== *)
(** * Sums over filtered rows *)
(* ===================================================================== *)

Lemma sum_filter_fold {A : Type} (p : A -> bool) (f : A -> float) (l : list A) (acc : float) :
  List.fold_left (fun s x => (s + x)%float) (List.map f (List.filter p l)) acc
  = List.fold_left (fun s r => if p r then (s + f r)%float else s) l acc.
Proof.
  revert acc; induction l as [|r l IH]; intros acc; simpl; [reflexivity|].
  destruct (p r); simpl; apply IH.
Qed.

Lemma sum_filter_ext {A B : Type} (p : A -> bool) (f : A -> float)
      (q : B -> bool) (g : B -> float) (l : list A) (l' : list B) :
  Forall2 (fun r r' => p r = q r' /\ f r = g r') l l' ->
  Js.sum (List.map f (List.filter p l)) = Js.sum (List.map g (List.filter q l')).
Proof.
  unfold Js.sum. rewrite !sum_filter_fold. generalize 0%float.
  intros acc H; revert acc; induction H as [|r r' l l' [Hp Hf] _ IH]; intros acc; simpl.
  - reflexivity.
  - rewrite Hp, Hf. apply IH.
Qed.

Lemma sum_snoc (xs : list float) (x : float) :
  Js.sum (xs ++ [x]) = (Js.sum xs + x)%float.
Proof. unfold Js.sum. now rewrite fold_left_app. Qed.

(* ===================================================================== *)
(** * Rows without a TID *)
(* ===================================================================== *)

Lemma groupStep_without_TID (acc : JsObject.t Claim.t) (row : Row.t) :
  hasTID row = false -> groupStep acc row = Normal acc.
Proof.
  unfold hasTID, truthy_text, groupStep. destruct (Row.TID row) as [tid|]; [|reflexivity].
  destruct (String.eqb tid ""); [reflexivity | discriminate].
Qed.

Lemma groupReduce_without_TID (acc : JsObject.t Claim.t) (data : list Row.t) :
  Forall (fun row => hasTID row = false) data -> groupReduce acc data = Normal acc.
Proof.
  induction 1 as [|row data Hrow _ IH]; simpl; [reflexivity|].
  now rewrite (groupStep_without_TID acc row Hrow).
Qed.

(** Rows without a TID leave the accumulator, and so the claims,
    unchanged. *)
Lemma groupReduce_filter_hasTID (data : list Row.t) (acc : JsObject.t Claim.t) :
  groupReduce acc (List.filter hasTID data) = groupReduce acc data.
Proof.
  revert acc; induction data as [|row data IH]; intros acc; simpl; [reflexivity|].
  destruct (hasTID row) eqn:Hrow; simpl.
  - destruct (groupStep acc row); [apply IH | reflexivity].
  - rewrite (groupStep_without_TID acc row Hrow). apply IH.
Qed.

(* ===================================================================== *)
(** * Normalisation and metrics *)
(* ===================================================================== *)

Section PipelineProperties.

Variable parseDateText : string -> option Date.
Variable toLocaleDateString : Date -> string.

Let preprocess := preprocessMAAClaims parseDateText.
Let metrics := calculateProposalMetrics parseDateText toLocaleDateString.

(** C8.  Normalisation derives Days to Payment as the parsed explicit value
    when the row has a non-empty one; otherwise as the floor of (Payment
    Date - Date of Discharge) in days, never below 0, when both dates
    parse; otherwise as 0.  It derives Actual Paid Amount as the parsed
    Approved Amount when "Claim Paid" occurs in the Status (case-sensitive),
    and as 0 otherwise. *)
Theorem preprocessRow_derived_fields (row : RawRecord) :
  let r := preprocessRow parseDateText row in
  (forall s, row !! "Days to Payment" = Some s -> s <> "" ->
     Row.Days_to_Payment r = parseNumber (Some s))
  /\ (truthy_text (row !! "Days to Payment") = false ->
      forall d p,
        parseDate parseDateText (row !! "Date of Discharge") = Some d ->
        parseDate parseDateText (row !! "Payment Date") = Some p ->
        Row.Days_to_Payment r
        = Js.Math_max 0%float (Js.Math_floor ((p - d) / 86400000)%float)
        /\ (Row.Days_to_Payment r <? 0)%float = false)
  /\ (truthy_text (row !! "Days to Payment") = false ->
      parseDate parseDateText (row !! "Date of Discharge") = None
      \/ parseDate parseDateText (row !! "Payment Date") = None ->
      Row.Days_to_Payment r = 0%float)
  /\ (forall s, row !! "Status" = Some s -> Substring "Claim Paid" s ->
      Row.Actual_Paid_Amount r = parseNumber (row !! "Approved Amount"))
  /\ ((forall s, row !! "Status" = Some s -> ~ Substring "Claim Paid" s) ->
      Row.Actual_Paid_Amount r = 0%float).
Proof.
  cbv zeta. unfold preprocessRow; simpl. split; [|split; [|split; [|split]]].
  - intros s Hs Hne. rewrite Hs. simpl.
    destruct (String.eqb_spec s ""); [contradiction | reflexivity].
  - intros Hdays d p Hd Hp. rewrite Hdays, Hd, Hp. split; [reflexivity|].
    apply Math_max_not_below.
  - intros Hdays [Hd | Hp]; rewrite Hdays.
    + now rewrite Hd.
    + rewrite Hp. now destruct (parseDate parseDateText (row !! "Date of Discharge")).
  - intros s Hs Hsub. rewrite Hs, status_includes_Some by discriminate.
    apply includes_Substring in Hsub. now rewrite Hsub.
  - intros Hnot. destruct (row !! "Status") as [s|] eqn:Hs; [|reflexivity].
    rewrite status_includes_Some by discriminate.
    destruct (Js.includes "Claim Paid" s) eqn:Hinc; [|reflexivity].
    apply includes_Substring in Hinc. now destruct (Hnot s eq_refl).
Qed.

Lemma metrics_Normal (data : list RawRecord) (m : MetricsSnapshot) :
  metrics data = Normal m ->
  exists claims,
    groupDataByTID (preprocess data) = Normal claims
    /\ m = metricsOf toLocaleDateString (preprocess data) claims.
Proof.
  unfold metrics, calculateProposalMetrics, preprocess.
  destruct (groupDataByTID (preprocessMAAClaims parseDateText data)) as [claims|msg];
    [|discriminate].
  intros [= <-]. now exists claims.
Qed.

(** C4.  The health score is [Math.min] of 90 and the weighted formula; it
    is the formula's value below 90 and 90 above it, so it never exceeds
    90. *)
Theorem healthScore_clamped (data : list RawRecord) (m : MetricsSnapshot) :
  metrics data = Normal m ->
  let unclamped :=
    ((100 - denialRate m) * 0.4 + collectionEfficiency m * 0.4
     + (100 - queryIncidence m) * 0.2)%float in
  healthScore m = Js.Math_min 90%float unclamped
  /\ (90 <? healthScore m)%float = false
  /\ ((unclamped <? 90)%float = true -> healthScore m = unclamped)
  /\ ((90 <? unclamped)%float = true -> healthScore m = 90%float).
Proof.
  intros Hm. apply metrics_Normal in Hm. destruct Hm as (claims & _ & ->).
  cbv zeta. simpl. unfold healthScoreOf. repeat split.
  - apply Math_min_not_above.
  - apply Math_min_below.
  - apply Math_min_above.
Qed.

(** C6.  The total paid amount is the row-level sum of the Approved Amount
    over the normalised rows whose Status contains "Claim Paid"; it is not
    the sum of the claims' Actual Paid Amount, from which it differs on the
    two sample rows. *)
Theorem totalPaidAmount_row_level :
  (forall data m,
      metrics data = Normal m ->
      totalPaidAmount m = paidRowsTotal (preprocess data))
  /\ (exists data,
         on_completion (metrics data) (fun m =>
         on_completion (groupDataByTID (preprocess data)) (fun claims =>
           Js.gt (totalPaidAmount m)
                 (Js.sum (List.map Claim.Actual_Paid_Amount claims)) = true))).
Proof.
  split.
  - intros data m Hm. apply metrics_Normal in Hm. destruct Hm as (claims & _ & ->).
    unfold metricsOf, totalPaidAmount, Js.sum, paidRowsTotal. apply sum_filter_fold.
  - exists [paidRow; orphanPaidRow]. vm_compute. reflexivity.
Qed.



Lemma preprocessRow_delete_TID (row : RawRecord) :
  let r := preprocessRow parseDateText row in
  let r' := preprocessRow parseDateText (delete "TID" row) in
  Row.TID r' = None
  /\ Row.Status r' = Row.Status r
  /\ Row.Pkg_Rate r' = Row.Pkg_Rate r
  /\ Row.Approved_Amount r' = Row.Approved_Amount r.
Proof.
  cbv zeta. unfold preprocessRow, Row.TID, Row.Status; simpl.
  rewrite lookup_delete_eq, !lookup_delete_ne by discriminate. auto.
Qed.

Lemma preprocess_delete_TID (data : list RawRecord) (p : option string -> bool)
      (f : Row.t -> float) :
  (forall row, f (preprocessRow parseDateText (delete "TID" row))
               = f (preprocessRow parseDateText row)) ->
  Js.sum (List.map f (List.filter (fun row => p (Row.Status row))
                                  (preprocess (List.map (delete "TID") data))))
  = Js.sum (List.map f (List.filter (fun row => p (Row.Status row)) (preprocess data))).
Proof.
  intros Hf. apply sum_filter_ext. unfold preprocess, preprocessMAAClaims.
  induction data as [|row data IH]; simpl; constructor; [|exact IH].
  destruct (preprocessRow_delete_TID row) as (_ & Hs & _). cbv zeta in Hs.
  rewrite Hs. auto.
Qed.

(** C10.  The four row-level sums do not look at the TID: erasing every
    TID, after which no claim is formed at all, leaves them unchanged.
    Hence a paid row without TID can raise the total paid amount above the
    total approved amount, and the collection efficiency above 100, as it
    does on the two sample rows. *)
Theorem row_sums_include_rows_without_TID :
  (forall data m,
      metrics data = Normal m ->
      exists m',
        metrics (List.map (delete "TID") data) = Normal m'
        /\ totalClaims m' = 0%float
        /\ rowSums m' = rowSums m)
  /\ (exists data,
         Exists (fun row => row !! "TID" = None /\ row !! "Status" = Some "Claim Paid") data
         /\ on_completion (metrics data) (fun m =>
              Js.gt (totalPaidAmount m) (totalApprovedAmount m) = true
              /\ Js.gt (collectionEfficiency m) 100%float = true)).
Proof.
  split.
  - intros data m Hm. apply metrics_Normal in Hm. destruct Hm as (claims & _ & ->).
    assert (Hgroup : groupDataByTID (preprocess (List.map (delete "TID") data)) = Normal []).
    { unfold groupDataByTID. rewrite groupReduce_without_TID; [reflexivity|].
      unfold preprocess, preprocessMAAClaims. rewrite List.map_map.
      apply List.Forall_forall. intros r Hr. apply List.in_map_iff in Hr.
      destruct Hr as (row & <- & _). unfold hasTID.
      destruct (preprocessRow_delete_TID row) as (Htid & _). cbv zeta in Htid.
      now rewrite Htid. }
    eexists. split.
    + unfold metrics, calculateProposalMetrics. fold preprocess. rewrite Hgroup. reflexivity.
    + split; [reflexivity|].
      assert (Hrate : forall row, Row.Pkg_Rate (preprocessRow parseDateText (delete "TID" row))
                                  = Row.Pkg_Rate (preprocessRow parseDateText row))
        by (intros row; apply (preprocessRow_delete_TID row)).
      assert (Happroved : forall row,
                 Row.Approved_Amount (preprocessRow parseDateText (delete "TID" row))
                 = Row.Approved_Amount (preprocessRow parseDateText row))
        by (intros row; apply (preprocessRow_delete_TID row)).
      unfold rowSums, metricsOf, totalPaidAmount, rejectedClaimsAmount,
        approvedUnpaidAmount, revenueStuckInQuery.
      rewrite (preprocess_delete_TID data (fun st => status_includes st "Claim Paid")
                 Row.Approved_Amount Happroved).
      rewrite (preprocess_delete_TID data status_rejected Row.Pkg_Rate Hrate).
      rewrite (preprocess_delete_TID data
                 (fun st => status_lower_includes st "approved"
                            && status_lower_includes st "supervisor")
                 Row.Approved_Amount Happroved).
      rewrite (preprocess_delete_TID data (fun st => status_lower_includes st "claim query")
                 Row.Pkg_Rate Hrate).
      reflexivity.
  - exists [paidRow; orphanPaidRow]. split.
    + right. left. split; vm_compute; reflexivity.
    + vm_compute. split; reflexivity.
Qed.

End PipelineProperties.

(** The total paid amount of the two sample rows is the sum over both
    rows. *)
Lemma totalPaidAmount_row_level_witness :
  on_completion (sampleMetrics [paidRow; orphanPaidRow]) (fun m =>
    totalPaidAmount m
    = paidRowsTotal (preprocessMAAClaims sampleDateText [paidRow; orphanPaidRow])
    /\ totalPaidAmount m = 100050%float).
Proof.
  destruct (sampleMetrics [paidRow; orphanPaidRow]) as [m|msg] eqn:Hm;
    [|vm_compute in Hm; discriminate].
  unfold on_completion.
  rewrite (proj1 (totalPaidAmount_row_level sampleDateText sampleLocaleDate) _ m Hm).
  split; [reflexivity | vm_compute; reflexivity].
Defined.

(** Erasing the TID of the two sample rows leaves the four row sums as
    they are. *)
Lemma row_sums_include_rows_without_TID_witness :
  on_completion (sampleMetrics [paidRow; orphanPaidRow]) (fun m =>
    exists m',
      sampleMetrics (List.map (delete "TID") [paidRow; orphanPaidRow]) = Normal m'
      /\ totalClaims m' = 0%float
      /\ rowSums m' = rowSums m).
Proof.
  destruct (sampleMetrics [paidRow; orphanPaidRow]) as [m|msg] eqn:Hm;
    [|vm_compute in Hm; discriminate].
  unfold on_completion.
  exact (proj1 (row_sums_include_rows_without_TID sampleDateText sampleLocaleDate) _ m Hm).
Defined.

(** The derived fields of the dated sample row: nine days to payment. *)
Lemma preprocessRow_derived_fields_witness :
  Row.Days_to_Payment (preprocessRow sampleDateText datedRow)
  = Js.Math_max 0%float
      (Js.Math_floor ((1736467200000 - 1735689600000) / 86400000)%float)
  /\ (Row.Days_to_Payment (preprocessRow sampleDateText datedRow) <? 0)%float = false.
Proof.
  apply (proj1 (proj2 (preprocessRow_derived_fields sampleDateText datedRow)));
    vm_compute; reflexivity.
Defined.

(** On the single paid row of the specification the formula gives 100 and
    the health score is 90. *)
Lemma healthScore_clamped_witness :
  on_completion (sampleMetrics [paidRow]) (fun m =>
    ((100 - denialRate m) * 0.4 + collectionEfficiency m * 0.4
     + (100 - queryIncidence m) * 0.2)%float = 100%float
    /\ healthScore m = 90%float).
Proof.
  destruct (sampleMetrics [paidRow]) as [m|msg] eqn:Hm; [|vm_compute in Hm; discriminate].
  pose proof (healthScore_clamped sampleDateText sampleLocaleDate [paidRow] m Hm) as H.
  cbv zeta in H. destruct H as (_ & _ & _ & Habove).
  assert (E : Normal m = sampleMetrics [paidRow]) by (symmetry; exact Hm).
  vm_compute in E. injection E as ->. simpl.
  split; [vm_compute; reflexivity|].
  apply Habove. vm_compute. reflexivity.
Defined.



(* ===================================================================== *)
(** * Properties of the dictionary *)
(* ===================================================================== *)

Section ObjectProperties.

Context {A : Type}.
Implicit Types (o : JsObject.t A) (key : string) (a : A).

Lemma get_own_In o key a : JsObject.get_own o key = Some a -> In (key, a) o.
Proof.
  induction o as [|[k b] o IH]; simpl; [discriminate|].
  destruct (String.eqb_spec k key) as [->|Hne].
  - intros [= ->]. now left.
  - intros H. right. now apply IH.
Qed.

Lemma set_keys o key a :
  List.map fst (JsObject.set o key a) = addKey (List.map fst o) key.
Proof.
  unfold addKey. induction o as [|[k b] o IH]; simpl; [reflexivity|].
  destruct (String.eqb k key); simpl; [reflexivity|].
  rewrite IH. now destruct (seen key (List.map fst o)).
Qed.

Lemma set_Forall (P : string * A -> Prop) o key a :
  Forall P o -> (forall k, k = key -> P (k, a)) -> Forall P (JsObject.set o key a).
Proof.
  intros Ho Ha. induction Ho as [|[k b] o Hkb Ho IH]; simpl.
  - constructor; [now apply Ha | constructor].
  - destruct (String.eqb_spec k key) as [->|Hne]; constructor; auto.
Qed.

Lemma insert_by_index_Permutation i (p : string * A) l :
  Permutation (JsObject.insert_by_index i p l) ((i, p) :: l).
Proof.
  induction l as [|[j q] l IH]; simpl; [reflexivity|].
  destruct (i <? j); [reflexivity|].
  rewrite IH. apply perm_swap.
Qed.

Lemma insert_by_index_sorted i (p : string * A) l :
  StronglySorted (fun x y => fst x <= fst y) l ->
  StronglySorted (fun x y => fst x <= fst y) (JsObject.insert_by_index i p l).
Proof.
  induction 1 as [|[j q] l Hl IH Hj]; simpl.
  - repeat constructor.
  - destruct (Z.ltb_spec i j) as [Hij|Hij].
    + constructor; [now constructor|].
      constructor; [simpl; lia|].
      eapply List.Forall_impl; [|exact Hj]. intros [k r]; simpl; lia.
    + constructor; [exact IH|].
      rewrite (insert_by_index_Permutation i p l).
      constructor; [simpl; lia | exact Hj].
Qed.

Lemma indexed_properties_sorted o :
  StronglySorted (fun x y => fst x <= fst y) (JsObject.indexed_properties o).
Proof.
  induction o as [|[k a] o IH]; simpl; [constructor|].
  destruct (JsObject.array_index k); [now apply insert_by_index_sorted | exact IH].
Qed.

Lemma indexed_properties_index o :
  Forall (fun x => JsObject.array_index (fst (snd x)) = Some (fst x))
         (JsObject.indexed_properties o).
Proof.
  induction o as [|[k a] o IH]; simpl; [constructor|].
  destruct (JsObject.array_index k) as [i|] eqn:Hk; [|exact IH].
  rewrite (insert_by_index_Permutation i (k, a)). now constructor.
Qed.

Lemma indexed_properties_Permutation o :
  Permutation (List.map snd (JsObject.indexed_properties o))
              (List.filter (fun p => JsObject.is_array_index (fst p)) o).
Proof.
  induction o as [|[k a] o IH]; simpl; [reflexivity|].
  unfold JsObject.is_array_index. destruct (JsObject.array_index k) as [i|]; [|exact IH].
  rewrite (insert_by_index_Permutation i (k, a)). simpl. now constructor.
Qed.

(** The own properties are the properties, reordered. *)
Lemma own_properties_Permutation o : Permutation (JsObject.own_properties o) o.
Proof.
  unfold JsObject.own_properties. rewrite indexed_properties_Permutation.
  induction o as [|p o IH]; simpl; [reflexivity|].
  destruct (JsObject.is_array_index (fst p)); simpl.
  - now constructor.
  - rewrite <- Permutation_middle. now constructor.
Qed.

Lemma values_Forall (P : A -> Prop) o :
  Forall (fun p => P (snd p)) o -> Forall P (JsObject.values o).
Proof.
  intros H. unfold JsObject.values. apply Forall_map.
  now rewrite (own_properties_Permutation o).
Qed.

End ObjectProperties.

(* ===================================================================== *)
(** * The aggregator *)
(* ===================================================================== *)

Lemma filter_ext_in_bool {A : Type} (p q : A -> bool) (l : list A) :
  (forall x, p x = q x) -> List.filter p l = List.filter q l.
Proof. intros H. apply List.filter_ext. exact H. Qed.

Lemma filter_filter_bool {A : Type} (p q : A -> bool) (l : list A) :
  List.filter p (List.filter q l) = List.filter (fun x => q x && p x) l.
Proof.
  induction l as [|x l IH]; simpl; [reflexivity|].
  destruct (q x); simpl; [destruct (p x)|]; now rewrite IH.
Qed.

Lemma seen_app (key : string) (keys more : list string) :
  seen key (keys ++ more) = seen key keys || seen key more.
Proof. unfold seen. apply existsb_app. Qed.

Lemma seen_In (key : string) (keys : list string) :
  seen key keys = true <-> In key keys.
Proof.
  unfold seen. rewrite existsb_exists. split.
  - intros (k & Hin & Hk). apply String.eqb_eq in Hk. now subst.
  - intros Hin. exists key. split; [exact Hin | apply String.eqb_refl].
Qed.

(** Seeing the keys one after the other keeps each at its first
    occurrence. *)
Lemma fold_addKey (l keys : list string) :
  List.fold_left addKey l keys
  = (keys ++ List.filter (fun y => negb (seen y keys)) (firstSeen l))%list.
Proof.
  revert keys; induction l as [|x l IH]; intros keys; simpl.
  - now rewrite app_nil_r.
  - rewrite IH. unfold addKey. destruct (seen x keys) eqn:Hx; simpl.
    + f_equal. rewrite filter_filter_bool. apply filter_ext_in_bool. intros y.
      destruct (String.eqb_spec y x) as [->|Hne]; simpl; [now rewrite Hx | reflexivity].
    + rewrite <- app_assoc. simpl. do 2 f_equal.
      rewrite filter_filter_bool. apply filter_ext_in_bool. intros y.
      rewrite seen_app. unfold seen at 2. simpl. rewrite orb_false_r, negb_orb.
      rewrite (String.eqb_sym x y). apply andb_comm.
Qed.

Lemma firstSeen_In (l : list string) (x : string) : In x (firstSeen l) <-> In x l.
Proof.
  induction l as [|y l IH]; simpl; [tauto|].
  rewrite filter_In, IH. destruct (String.eqb_spec x y) as [->|Hne]; simpl.
  - tauto.
  - split; [tauto|]. intros [H|H]; [congruence | auto].
Qed.

Lemma firstSeen_NoDup (l : list string) : List.NoDup (firstSeen l).
Proof.
  induction l as [|y l IH]; simpl; constructor.
  - rewrite filter_In. intros [_ H]. now rewrite String.eqb_refl in H.
  - now apply List.NoDup_filter.
Qed.

Lemma addRow_TID (c : Claim.t) (row : Row.t) : Claim.TID (addRow c row) = Claim.TID c.
Proof. reflexivity. Qed.

Lemma initialClaim_TID (row : Row.t) : Claim.TID (initialClaim row) = Row.TID row.
Proof. reflexivity. Qed.

(** One step on a row with a non-empty TID that names no inherited
    property: the row is added to the claim of its TID, a new one if need
    be. *)
Lemma groupStep_with_TID (acc : JsObject.t Claim.t) (row : Row.t) (tid : string) :
  Row.TID row = Some tid -> tid <> "" -> JsObject.inherited tid = false ->
  exists c,
    groupStep acc row = Normal (JsObject.set acc tid (addRow c row))
    /\ (In (tid, c) acc \/ c = initialClaim row).
Proof.
  intros Htid Hne Hinh. unfold groupStep, JsObject.get. rewrite Htid.
  destruct (String.eqb_spec tid ""); [contradiction|].
  destruct (JsObject.get_own acc tid) as [c|] eqn:Hget.
  - exists c. split; [reflexivity|]. left. now apply get_own_In.
  - rewrite Hinh. exists (initialClaim row). auto.
Qed.

Lemma ownTID_cases (row : Row.t) :
  (hasTID row = false /\ ownTID row = [])
  \/ (exists tid, Row.TID row = Some tid /\ tid <> "" /\ ownTID row = [tid]).
Proof.
  unfold hasTID, truthy_text, ownTID. destruct (Row.TID row) as [tid|]; [|now left].
  destruct (String.eqb_spec tid "") as [->|Hne]; [now left|].
  right. now exists tid.
Qed.

(** Without inherited names the reduction completes, and its keys are the
    TIDs in first-seen order. *)
Lemma groupReduce_keys (data : list Row.t) (acc : JsObject.t Claim.t) :
  Forall (fun tid => JsObject.inherited tid = false) (rowTIDs data) ->
  exists acc',
    groupReduce acc data = Normal acc'
    /\ List.map fst acc' = List.fold_left addKey (rowTIDs data) (List.map fst acc).
Proof.
  revert acc; induction data as [|row data IH]; intros acc Hinh; simpl.
  - now exists acc.
  - unfold rowTIDs in Hinh. simpl in Hinh. apply Forall_app in Hinh.
    destruct Hinh as [Hrow Hdata].
    destruct (ownTID_cases row) as [[Hno Hown] | (tid & Htid & Hne & Hown)].
    + rewrite (groupStep_without_TID acc row Hno).
      unfold rowTIDs. simpl. rewrite Hown. simpl. now apply IH.
    + rewrite Hown in Hrow. inversion_clear Hrow as [|? ? Hinh _].
      destruct (groupStep_with_TID acc row tid Htid Hne Hinh) as (c & -> & _).
      destruct (IH (JsObject.set acc tid (addRow c row)) Hdata) as (acc' & Hred & Hkeys).
      exists acc'. split; [exact Hred|].
      unfold rowTIDs. simpl. rewrite Hown. simpl.
      now rewrite Hkeys, set_keys.
Qed.

(** A property of keyed claims that the first row of a TID establishes and
    every further row keeps holds of all claims of the reduction. *)
Lemma groupReduce_invariant (P : string -> Claim.t -> Prop) :
  (forall row tid, Row.TID row = Some tid -> P tid (initialClaim row)) ->
  (forall row tid c, Row.TID row = Some tid -> P tid c -> P tid (addRow c row)) ->
  forall data acc acc',
    Forall (fun p => P (fst p) (snd p)) acc ->
    groupReduce acc data = Normal acc' ->
    Forall (fun p => P (fst p) (snd p)) acc'.
Proof.
  intros Hinit Hadd. induction data as [|row data IH]; intros acc acc' Hacc; simpl.
  - now intros [= <-].
  - destruct (groupStep acc row) as [acc1|msg] eqn:Hstep; [|discriminate].
    apply IH. revert Hstep. unfold groupStep.
    destruct (Row.TID row) as [tid|] eqn:Htid; [|now intros [= <-]].
    destruct (String.eqb tid ""); [now intros [= <-]|].
    unfold JsObject.get.
    destruct (JsObject.get_own acc tid) as [c|] eqn:Hget.
    + intros [= <-]. apply set_Forall; [exact Hacc|]. intros k ->. simpl.
      apply Hadd; [exact Htid|].
      apply get_own_In in Hget. rewrite List.Forall_forall in Hacc.
      exact (Hacc _ Hget).
    + destruct (JsObject.inherited tid); [discriminate|].
      intros [= <-]. apply set_Forall; [exact Hacc|]. intros k ->. simpl.
      apply Hadd; [exact Htid|]. now apply Hinit.
Qed.

Lemma map_fst_filter {A : Type} (p : string -> bool) (o : list (string * A)) :
  List.map fst (List.filter (fun x => p (fst x)) o) = List.filter p (List.map fst o).
Proof.
  induction o as [|[k a] o IH]; simpl; [reflexivity|].
  destruct (p k); simpl; now rewrite IH.
Qed.

Lemma filter_partition_Permutation {A : Type} (p : A -> bool) (l : list A) :
  Permutation (List.filter p l ++ List.filter (fun x => negb (p x)) l) l.
Proof.
  induction l as [|x l IH]; simpl; [reflexivity|].
  destruct (p x); simpl.
  - now constructor.
  - rewrite <- Permutation_middle. now constructor.
Qed.

Lemma filter_all {A : Type} (p : A -> bool) (l : list A) :
  Forall (fun x => p x = true) l -> List.filter p l = l.
Proof.
  induction 1 as [|x l Hx _ IH]; simpl; [reflexivity|]. now rewrite Hx, IH.
Qed.

Lemma filter_none {A : Type} (p : A -> bool) (l : list A) :
  Forall (fun x => p x = false) l -> List.filter p l = [].
Proof.
  induction 1 as [|x l Hx _ IH]; simpl; [reflexivity|]. now rewrite Hx.
Qed.

Lemma NoDup_map_Some {A : Type} (l : list A) :
  List.NoDup l -> List.NoDup (List.map Some l).
Proof.
  induction 1 as [|x l Hx _ IH]; simpl; constructor; [|exact IH].
  rewrite List.in_map_iff. intros (y & [= ->] & Hy). contradiction.
Qed.

(** The keys that are array indices come out in ascending order. *)
Lemma indexed_keys_ascending {A : Type} (o : JsObject.t A) :
  ascending (List.map fst (List.map snd (JsObject.indexed_properties o))).
Proof.
  unfold ascending.
  pose proof (indexed_properties_sorted o) as Hsorted.
  pose proof (indexed_properties_index o) as Hindex.
  induction Hsorted as [|x l Hl IH Hx]; simpl; [constructor|].
  inversion_clear Hindex as [|? ? Hix Hil].
  constructor; [now apply IH|].
  rewrite List.Forall_map, List.Forall_map.
  rewrite List.Forall_forall in Hx, Hil |- *. intros y Hy.
  unfold index_of. rewrite Hix, (Hil y Hy). now apply Hx.
Qed.

(** The keys of an object whose properties were created in the order
    [created]: its array indices ascending, then the others as created. *)
Lemma keys_order {A : Type} (o : JsObject.t A) :
  exists indices,
    JsObject.keys o
    = (indices ++ List.filter (fun k => negb (JsObject.is_array_index k)) (List.map fst o))%list
    /\ Permutation indices (List.filter JsObject.is_array_index (List.map fst o))
    /\ ascending indices.
Proof.
  exists (List.map fst (List.map snd (JsObject.indexed_properties o))).
  split; [|split].
  - unfold JsObject.keys, JsObject.own_properties.
    now rewrite List.map_app, (map_fst_filter (fun k => negb (JsObject.is_array_index k))).
  - rewrite <- (map_fst_filter JsObject.is_array_index).
    apply Permutation_map, indexed_properties_Permutation.
  - apply indexed_keys_ascending.
Qed.

Lemma values_TID (acc : JsObject.t Claim.t) :
  Forall (fun p => Claim.TID (snd p) = Some (fst p)) acc ->
  List.map Claim.TID (JsObject.values acc) = List.map Some (JsObject.keys acc).
Proof.
  intros H. unfold JsObject.values, JsObject.keys. rewrite !List.map_map.
  apply List.map_ext_in. intros p Hp.
  rewrite <- (own_properties_Permutation acc) in H.
  rewrite List.Forall_forall in H. exact (H p Hp).
Qed.

(** C1, as the code has it.  When no TID names a property inherited from
    [Object.prototype], the aggregator returns exactly one claim per
    distinct non-empty TID: first the claims whose TID is an array index, in
    ascending numeric order, then the others in the order in which each TID
    first appears.  Rows whose TID is absent or empty contribute nothing and
    raise no error; when no TID is an array index the order is the
    first-seen order. *)
Theorem groupDataByTID_claims (data : list Row.t) :
  Forall (fun tid => JsObject.inherited tid = false) (rowTIDs data) ->
  exists claims indices,
    groupDataByTID data = Normal claims
    /\ List.map Claim.TID claims
       = List.map Some
           (indices ++ List.filter (fun k => negb (JsObject.is_array_index k))
                                   (firstSeen (rowTIDs data)))%list
    /\ Permutation indices
         (List.filter JsObject.is_array_index (firstSeen (rowTIDs data)))
    /\ ascending indices
    /\ List.NoDup (List.map Claim.TID claims)
    /\ (forall tid, In (Some tid) (List.map Claim.TID claims) <-> In tid (rowTIDs data))
    /\ groupDataByTID (List.filter hasTID data) = Normal claims
    /\ (Forall (fun tid => JsObject.is_array_index tid = false) (rowTIDs data) ->
        List.map Claim.TID claims = List.map Some (firstSeen (rowTIDs data))).
Proof.
  intros Hinh.
  destruct (groupReduce_keys data [] Hinh) as (acc & Hred & Hkeys).
  simpl in Hkeys. rewrite fold_addKey in Hkeys. simpl in Hkeys.
  rewrite (filter_all (fun _ => true)) in Hkeys by (apply List.Forall_forall; auto).
  assert (Htid : Forall (fun p => Claim.TID (snd p) = Some (fst p)) acc).
  { apply (groupReduce_invariant (fun tid c => Claim.TID c = Some tid))
      with (data := data) (acc := []); [| |constructor|exact Hred].
    - intros row tid H. now rewrite initialClaim_TID.
    - intros row tid c _ H. now rewrite addRow_TID. }
  destruct (keys_order acc) as (indices & Hk & Hperm & Hasc). rewrite Hkeys in Hk, Hperm.
  assert (Hall : Permutation
                   (indices ++ List.filter (fun k => negb (JsObject.is_array_index k))
                                           (firstSeen (rowTIDs data)))
                   (firstSeen (rowTIDs data))).
  { rewrite Hperm. apply filter_partition_Permutation. }
  exists (JsObject.values acc), indices.
  assert (Hmap : List.map Claim.TID (JsObject.values acc)
                 = List.map Some
                     (indices ++ List.filter (fun k => negb (JsObject.is_array_index k))
                                             (firstSeen (rowTIDs data)))%list)
    by now rewrite (values_TID acc Htid), Hk.
  split; [unfold groupDataByTID; now rewrite Hred|].
  split; [exact Hmap|]. split; [exact Hperm|]. split; [exact Hasc|].
  split; [|split; [|split]].
  - rewrite Hmap. apply NoDup_map_Some. rewrite Hall. apply firstSeen_NoDup.
  - intros tid. rewrite Hmap, List.in_map_iff. split.
    + intros (k & [= ->] & Hin). rewrite Hall in Hin. now apply firstSeen_In.
    + intros Hin. exists tid. split; [reflexivity|]. rewrite Hall. now apply firstSeen_In.
  - unfold groupDataByTID. now rewrite groupReduce_filter_hasTID, Hred.
  - intros Hnone. rewrite Hmap. f_equal.
    assert (Hfs : Forall (fun tid => JsObject.is_array_index tid = false)
                         (firstSeen (rowTIDs data))).
    { rewrite List.Forall_forall in Hnone |- *. intros k Hk'. apply Hnone.
      now apply firstSeen_In. }
    rewrite (filter_none _ _ Hfs) in Hperm. symmetry in Hperm. apply Permutation_nil in Hperm. subst indices.
    simpl. apply filter_all. eapply List.Forall_impl; [|exact Hfs].
    intros k ->. reflexivity.
Qed.

(** The theorem on the two sample rows: one claim for each of the TIDs. *)
Lemma groupDataByTID_claims_witness :
  exists claims,
    groupDataByTID (preprocessMAAClaims sampleDateText rowsTwoThenOne) = Normal claims
    /\ List.NoDup (List.map Claim.TID claims)
    /\ (forall tid, In (Some tid) (List.map Claim.TID claims) <-> In tid ["2"; "1"]).
Proof.
  destruct (groupDataByTID_claims (preprocessMAAClaims sampleDateText rowsTwoThenOne))
    as (claims & indices & Hgroup & _ & _ & _ & Hnodup & Hin & _).
  - vm_compute. repeat constructor.
  - exists claims. split; [exact Hgroup|]. split; [exact Hnodup | exact Hin].
Defined.

(** C1 as stated fails: the rows with TID "2" and then "1" give the claim
    of "1" first. *)
Lemma groupDataByTID_not_first_seen :
  ~ groups_in_first_seen_order (preprocessMAAClaims sampleDateText rowsTwoThenOne).
Proof.
  intros (claims & Hgroup & Horder).
  assert (E : List.map Claim.TID claims = [Some "1"; Some "2"]).
  { assert (H : Normal (List.map Claim.TID claims)
                = match groupDataByTID (preprocessMAAClaims sampleDateText rowsTwoThenOne) with
                  | Normal cs => Normal (List.map Claim.TID cs)
                  | TypeError msg => TypeError msg
                  end) by now rewrite Hgroup.
    vm_compute in H. now injection H. }
  rewrite E in Horder. vm_compute in Horder. discriminate.
Qed.

(** A TID that names an inherited property makes the aggregator throw. *)
Lemma groupDataByTID_inherited_TID :
  groupDataByTID (preprocessMAAClaims sampleDateText [constructorRow])
  = TypeError "Cannot read properties of undefined (reading 'push')".
Proof. vm_compute. reflexivity. Qed.

Lemma addRow_rate (c : Claim.t) (row : Row.t) :
  Claim.Pkg_Rate c = Js.sum (componentRates c) ->
  Claim.Pkg_Rate (addRow c row) = Js.sum (componentRates (addRow c row)).
Proof.
  intros H. unfold componentRates. simpl. rewrite List.map_app. simpl.
  rewrite sum_snoc. unfold componentRates in H. now rewrite H.
Qed.

Lemma groupDataByTID_invariant (P : Claim.t -> Prop) (data : list Row.t)
      (claims : list Claim.t) :
  (forall row, P (initialClaim row)) ->
  (forall row c, P c -> P (addRow c row)) ->
  groupDataByTID data = Normal claims -> Forall P claims.
Proof.
  intros Hinit Hadd. unfold groupDataByTID.
  destruct (groupReduce [] data) as [acc|msg] eqn:Hred; [|discriminate].
  intros [= <-]. apply values_Forall.
  apply (groupReduce_invariant (fun _ c => P c)) with (data := data) (acc := []);
    [intros; apply Hinit | intros; now apply Hadd | constructor | exact Hred].
Qed.

(* ===================================================================== *)
(** * Rounding of binary64 operations *)
(* ===================================================================== *)

Lemma digits2_pos_bounds (p : positive) :
  2 ^ (Zpos (digits2_pos p) - 1) <= Zpos p < 2 ^ Zpos (digits2_pos p).
Proof.
  induction p as [p IH|p IH|]; simpl digits2_pos.
  - rewrite Pos2Z.inj_succ, Z.pow_succ_r by lia.
    replace (Z.succ (Zpos (digits2_pos p)) - 1) with (Z.succ (Zpos (digits2_pos p) - 1)) by lia.
    rewrite Z.pow_succ_r by lia. lia.
  - rewrite Pos2Z.inj_succ, Z.pow_succ_r by lia.
    replace (Z.succ (Zpos (digits2_pos p)) - 1) with (Z.succ (Zpos (digits2_pos p) - 1)) by lia.
    rewrite Z.pow_succ_r by lia. lia.
  - simpl. lia.
Qed.

Lemma digits2_pos_eq (p : positive) (k : Z) :
  2 ^ (k - 1) <= Zpos p < 2 ^ k -> Zpos (digits2_pos p) = k.
Proof.
  intros [Hlo Hhi]. destruct (digits2_pos_bounds p) as [Hlo' Hhi'].
  assert (Hk : 0 < k).
  { destruct (Z.ltb_spec 0 k); [assumption|].
    rewrite (Z.pow_neg_r 2 (k - 1)) in Hlo by lia.
    destruct (Z.eqb_spec k 0) as [->|]; [simpl in Hhi; lia|].
    rewrite (Z.pow_neg_r 2 k) in Hhi by lia. lia. }
  assert (H1 : k - 1 < Zpos (digits2_pos p))
    by (apply (Z.pow_lt_mono_r_iff 2); lia).
  assert (H2 : Zpos (digits2_pos p) - 1 < k)
    by (apply (Z.pow_lt_mono_r_iff 2); lia).
  lia.
Qed.

Lemma normal_mantissa_digits (m : positive) :
  normal_mantissa m <-> Zpos (digits2_pos m) = 53.
Proof.
  split.
  - intros H. apply digits2_pos_eq. exact H.
  - intros H. pose proof (digits2_pos_bounds m) as B. rewrite H in B. exact B.
Qed.

Lemma iter_pos_invariant {A : Type} (P : A -> Prop) (f : A -> A) :
  (forall x, P x -> P (f x)) -> forall p x, P x -> P (SpecFloat.iter_pos f p x).
Proof. intros Hf. induction p as [p IH|p IH|]; simpl; auto. Qed.

Lemma shr_1_nonneg (r : shr_record) : 0 <= shr_m r -> 0 <= shr_m (shr_1 r).
Proof.
  destruct r as [m r s]. simpl. destruct m as [|[p|p|]|p]; simpl; lia.
Qed.

Lemma shr_fexp_nonneg (m e : Z) (l : location) :
  0 <= m -> 0 <= shr_m (fst (shr_fexp prec emax m e l)).
Proof.
  intros Hm. unfold shr_fexp, shr.
  assert (H0 : 0 <= shr_m (shr_record_of_loc m l)) by (destruct l as [|[]]; exact Hm).
  destruct (fexp prec emax (Zdigits2 m + e) - e); simpl; try exact H0.
  now apply iter_pos_invariant; [apply shr_1_nonneg|].
Qed.

Lemma round_nearest_even_cases (m : Z) (l : location) :
  round_nearest_even m l = m \/ round_nearest_even m l = m + 1.
Proof. destruct l as [|[]]; simpl; auto. destruct (Z.even m); auto. Qed.

Lemma binary_round_aux_sign (s : bool) (m e : Z) (l : location) :
  0 <= m -> has_sign s (binary_round_aux prec emax s m e l).
Proof.
  intros Hm. unfold binary_round_aux.
  pose proof (shr_fexp_nonneg m e l Hm) as H1.
  destruct (shr_fexp prec emax m e l) as [mrs' e']. simpl in H1.
  assert (H2 : 0 <= round_nearest_even (shr_m mrs') (loc_of_shr_record mrs'))
    by (destruct (round_nearest_even_cases (shr_m mrs') (loc_of_shr_record mrs')); lia).
  pose proof (shr_fexp_nonneg _ e' loc_Exact H2) as H3.
  destruct (shr_fexp prec emax _ e' loc_Exact) as [mrs'' e'']. simpl in H3.
  destruct (shr_m mrs''); simpl; [reflexivity| |lia].
  destruct (e'' <=? emax - prec); reflexivity.
Qed.

(** A finite value is a zero or has a mantissa and an exponent. *)
Lemma Prim2SF_finite (x : float) :
  Js.isFinite x = true ->
  (exists s, Prim2SF x = S754_zero s) \/ (exists s m e, Prim2SF x = S754_finite s m e).
Proof.
  unfold Js.isFinite, Prim2SF.
  destruct (is_nan x); [discriminate|]. destruct (is_zero x); [eauto|].
  destruct (is_infinity x); [discriminate|]. intros _.
  destruct (Z.frexp x) as [r ex].
  destruct (shr_fexp prec emax _ _ _) as [mrs e'].
  destruct (shr_m mrs); eauto.
Qed.

(** A finite value minus itself is [+0]. *)
Lemma sub_diag_finite (x : float) : Js.isFinite x = true -> (x - x)%float = 0%float.
Proof.
  intros H. apply Prim2SF_inj. rewrite sub_spec.
  destruct (Prim2SF_finite x H) as [[s ->] | (s & m & e & ->)].
  - now destruct s.
  - unfold SF64sub, SFsub. rewrite Z.sub_diag. reflexivity.
Qed.

(** The tolerance test passes on identical finite values. *)
Lemma tolerance_test_refl (x : float) :
  Js.isFinite x = true -> tolerance_test 1e-6 x x = true.
Proof.
  intros H. unfold tolerance_test. rewrite (sub_diag_finite x H).
  rewrite leb_spec, mul_spec, !abs_spec.
  change (Prim2SF 0) with (S754_zero false).
  set (tol := Prim2SF 1e-6). vm_compute in tol. subst tol.
  destruct (Prim2SF_finite x H) as [[s ->] | (s & m & e & ->)]; [reflexivity|].
  simpl SFabs. unfold SF64mul, SFmul. simpl xorb.
  pose proof (binary_round_aux_sign false
                (Zpos (4722366482869645 * m)) (-72 + e) loc_Exact ltac:(lia)) as Hs.
  destruct (binary_round_aux prec emax false _ _ loc_Exact) as [s'|s'| |s' m' e'];
    simpl in Hs; subst; try reflexivity. contradiction.
Qed.

(* ===================================================================== *)
(** * Claims and their components *)
(* ===================================================================== *)

(** C2.  The Pkg Rate of every claim the aggregator returns is the very
    double that summing the Component Pkg Rate of its components from 0, in
    their order, gives; so the two agree within the relative tolerance, and
    the tolerance test itself passes whenever the rate is finite. *)
Theorem claim_rate_is_component_sum (data : list Row.t) (claims : list Claim.t) :
  groupDataByTID data = Normal claims ->
  Forall (fun c =>
            Claim.Pkg_Rate c = Js.sum (componentRates c)
            /\ within_tolerance 1e-6 (Claim.Pkg_Rate c) (Js.sum (componentRates c))
            /\ (Js.isFinite (Claim.Pkg_Rate c) = true ->
                tolerance_test 1e-6 (Claim.Pkg_Rate c) (Js.sum (componentRates c)) = true))
         claims.
Proof.
  intros Hgroup.
  assert (Hsum : Forall (fun c => Claim.Pkg_Rate c = Js.sum (componentRates c)) claims).
  { apply (groupDataByTID_invariant _ data claims); [reflexivity | | exact Hgroup].
    intros row c. apply addRow_rate. }
  eapply List.Forall_impl; [|exact Hsum]. intros c Hc. split; [exact Hc|]. split.
  - left. exact Hc.
  - intros Hfin. rewrite <- Hc. now apply tolerance_test_refl.
Qed.

(** The theorem on the two sample rows. *)
Lemma claim_rate_is_component_sum_witness :
  on_completion (groupDataByTID (preprocessMAAClaims sampleDateText rowsTwoThenOne))
    (Forall (fun c => Claim.Pkg_Rate c = Js.sum (componentRates c))).
Proof.
  destruct (groupDataByTID (preprocessMAAClaims sampleDateText rowsTwoThenOne))
    as [claims|msg] eqn:Hgroup; [|vm_compute in Hgroup; discriminate].
  simpl. eapply List.Forall_impl;
    [|exact (claim_rate_is_component_sum _ claims Hgroup)].
  intros c H. apply H.
Defined.

Lemma binary_round_aux_phases (sx : bool) (mx ex : Z) (lx : location) :
  binary_round_aux prec emax sx mx ex lx
  = let '(mrs, e) := shr_fexp prec emax mx ex lx in round_phase sx mrs e.
Proof. reflexivity. Qed.

Lemma shr_fexp_53 (p : positive) (e : Z) (l : location) :
  -1074 <= e -> normal_mantissa p ->
  shr_fexp prec emax (Zpos p) e l = (shr_record_of_loc (Zpos p) l, e).
Proof.
  intros He Hp. apply normal_mantissa_digits in Hp.
  unfold shr_fexp, fexp, emin, Zdigits2. rewrite Hp.
  replace (Z.max (53 + e - prec) (3 - emax - prec) - e) with 0 by (unfold prec, emax; lia).
  reflexivity.
Qed.

Lemma shr_fexp_54 (p : positive) (e : Z) (l : location) :
  -1074 <= e -> 2 ^ 53 <= Zpos p < 2 ^ 54 ->
  shr_fexp prec emax (Zpos p) e l = (shr_1 (shr_record_of_loc (Zpos p) l), e + 1).
Proof.
  intros He Hp. apply (digits2_pos_eq p 54) in Hp.
  unfold shr_fexp, fexp, emin, Zdigits2. rewrite Hp.
  replace (Z.max (54 + e - prec) (3 - emax - prec) - e) with 1 by (unfold prec, emax; lia).
  reflexivity.
Qed.

Lemma shr_m_of_loc (m : Z) (l : location) : shr_m (shr_record_of_loc m l) = m.
Proof. destruct l as [|[]]; reflexivity. Qed.

(** Rounding a 53-bit mantissa keeps it, or moves it one unit up. *)
Lemma round_phase_normal (m0 : positive) (r s : bool) (e : Z) :
  normal_mantissa m0 -> -1074 <= e -> e + 1 <= 971 ->
  exists mz t,
    round_phase false (Build_shr_record (Zpos m0) r s) e = S754_finite false mz (e + t)
    /\ normal_mantissa mz /\ 0 <= t <= 1
    /\ (Zpos mz - 1) * 2 ^ t <= Zpos m0
    /\ Zpos m0 + 1 <= (Zpos mz + 1) * 2 ^ t.
Proof.
  intros Hm He Hmax. unfold round_phase. cbn [shr_m].
  assert (Hkeep : forall p : positive,
             normal_mantissa p ->
             (let '(mrs'', e'') := shr_fexp prec emax (Zpos p) e loc_Exact in
              match shr_m mrs'' with
              | Z0 => S754_zero false
              | Zpos m => if e'' <=? emax - prec then S754_finite false m e''
                          else S754_infinity false
              | Zneg _ => S754_nan
              end) = S754_finite false p (e + 0)).
  { intros p Hp. rewrite (shr_fexp_53 p e loc_Exact He Hp). cbn [shr_record_of_loc shr_m].
    rewrite Z.add_0_r.
    destruct (Z.leb_spec e (emax - prec)) as [_|Hgt]; [reflexivity|].
    unfold emax, prec in Hgt. lia. }
  destruct (round_nearest_even_cases (Zpos m0) (loc_of_shr_record (Build_shr_record (Zpos m0) r s)))
    as [-> | ->].
  - exists m0, 0. rewrite (Hkeep m0 Hm). unfold normal_mantissa in Hm. repeat split; lia.
  - unfold normal_mantissa in Hm.
    destruct (Z.eq_dec (Zpos m0 + 1) (2 ^ 53)) as [Hcarry|Hno].
    + exists 4503599627370496%positive, 1. rewrite Hcarry.
      change (2 ^ 53) with 9007199254740992.
      rewrite (shr_fexp_54 9007199254740992 e loc_Exact He) by (simpl; lia).
      cbn [shr_record_of_loc shr_1 shr_m].
      destruct (Z.leb_spec (e + 1) (emax - prec)) as [_|Hgt];
        [|unfold emax, prec in Hgt; lia].
      unfold normal_mantissa. repeat split; lia.
    + exists (m0 + 1)%positive, 0.
      change (Zpos m0 + 1) with (Zpos (m0 + 1)).
      rewrite (Hkeep (m0 + 1)%positive) by (unfold normal_mantissa; lia).
      unfold normal_mantissa. repeat split; lia.
Qed.

(** Rounding a quotient of 53 or 54 bits gives a normal value within one
    unit in the last place. *)
Lemma binary_round_aux_normal (q e : Z) (l : location) :
  2 ^ 52 <= q < 2 ^ 54 -> -1074 <= e -> e + 2 <= 971 ->
  exists mz t,
    binary_round_aux prec emax false q e l = S754_finite false mz (e + t)
    /\ normal_mantissa mz /\ 0 <= t <= 2
    /\ (Zpos mz - 1) * 2 ^ t <= q
    /\ q + 1 <= (Zpos mz + 1) * 2 ^ t.
Proof.
  intros Hq He Hmax. destruct q as [|p|p]; try lia.
  rewrite binary_round_aux_phases.
  destruct (Z.ltb_spec (Zpos p) (2 ^ 53)) as [Hlt|Hge].
  - assert (Hp : normal_mantissa p) by (unfold normal_mantissa; lia).
    rewrite (shr_fexp_53 p e l He Hp).
    destruct (shr_record_of_loc (Zpos p) l) as [m r s] eqn:Hrec.
    assert (Hm : m = Zpos p) by (rewrite <- (shr_m_of_loc (Zpos p) l), Hrec; reflexivity).
    subst m.
    destruct (round_phase_normal p r s e Hp He ltac:(lia)) as (mz & t & Hres & Hmz & Ht & Hlo & Hhi).
    exists mz, t. unfold normal_mantissa in *. repeat split; try assumption; lia.
  - rewrite (shr_fexp_54 p e l He) by lia.
    destruct (shr_record_of_loc (Zpos p) l) as [m r s] eqn:Hrec.
    assert (Hm : m = Zpos p) by (rewrite <- (shr_m_of_loc (Zpos p) l), Hrec; reflexivity).
    subst m.
    assert (Hhalf : exists p' r' s', shr_1 (Build_shr_record (Zpos p) r s)
                                     = Build_shr_record (Zpos p') r' s'
                                     /\ 2 * Zpos p' <= Zpos p <= 2 * Zpos p' + 1).
    { destruct p as [p'|p'|]; [| |lia]; cbn [shr_1]; eexists p', _, _; split;
        try reflexivity; lia. }
    destruct Hhalf as (p' & r' & s' & -> & Hp').
    assert (Hn : normal_mantissa p') by (unfold normal_mantissa; lia).
    destruct (round_phase_normal p' r' s' (e + 1) Hn ltac:(lia) ltac:(lia))
      as (mz & t & Hres & Hmz & Ht & Hlo & Hhi).
    exists mz, (1 + t). rewrite Hres.
    replace (e + 1 + t) with (e + (1 + t)) by lia.
    rewrite Z.pow_add_r by lia. change (2 ^ 1) with 2.
    unfold normal_mantissa in *. repeat split; try assumption; lia.
Qed.

(** Division of two positive normal values whose quotient is in the normal
    range: the result is normal and within one unit in the last place of
    the exact quotient. *)
Lemma SF64div_normal (mx my : positive) (ex ey : Z) :
  normal_mantissa mx -> normal_mantissa my ->
  -1074 <= ex - ey - 53 -> ex - ey - 51 <= 971 ->
  exists mz t,
    SF64div (S754_finite false mx ex) (S754_finite false my ey)
    = S754_finite false mz (ex - ey - 53 + t)
    /\ normal_mantissa mz /\ 0 <= t <= 2
    /\ (Zpos mz - 1) * 2 ^ t * Zpos my <= Zpos mx * 2 ^ 53
    /\ Zpos mx * 2 ^ 53 < (Zpos mz + 1) * 2 ^ t * Zpos my.
Proof.
  intros Hx Hy Hlo Hhi.
  unfold SF64div, SFdiv, SFdiv_core_binary. cbn [xorb Zdigits2].
  rewrite (proj1 (normal_mantissa_digits mx) Hx), (proj1 (normal_mantissa_digits my) Hy).
  replace (Z.min (fexp prec emax (53 + ex - (53 + ey))) (ex - ey)) with (ex - ey - 53)
    by (unfold fexp, emin, prec, emax; lia).
  replace (ex - ey - (ex - ey - 53)) with 53 by lia.
  cbv iota. rewrite Z.shiftl_mul_pow2 by lia.
  pose proof (Z_div_mod (Zpos mx * 2 ^ 53) (Zpos my) ltac:(lia)) as Hdiv.
  destruct (Z.div_eucl (Zpos mx * 2 ^ 53) (Zpos my)) as [q r].
  destruct Hdiv as [Hdiv Hr].
  unfold normal_mantissa in Hx, Hy.
  assert (Hq : 2 ^ 52 <= q < 2 ^ 54).
  { change (2 ^ 52) with 4503599627370496 in *.
    change (2 ^ 53) with 9007199254740992 in *.
    change (2 ^ 54) with 18014398509481984. nia. }
  destruct (binary_round_aux_normal q (ex - ey - 53) (new_location (Zpos my) r) Hq Hlo
              ltac:(lia)) as (mz & t & Hres & Hmz & Ht & Hzq & Hqz).
  exists mz, t. rewrite Hres.
  split; [reflexivity|]. split; [exact Hmz|]. split; [exact Ht|]. split.
  - apply Z.le_trans with (q * Zpos my); [|lia].
    apply Z.mul_le_mono_nonneg_r; lia.
  - apply Z.lt_le_trans with ((q + 1) * Zpos my); [lia|].
    apply Z.mul_le_mono_nonneg_r; lia.
Qed.

(** A value between [2^-1018] and the largest double is positive and
    normal. *)
Lemma Prim2SF_normal_range (x : float) :
  (0x1p-1018 <=? x)%float = true -> (x <? infinity)%float = true ->
  exists m e, Prim2SF x = S754_finite false m e
              /\ normal_mantissa m /\ -1070 <= e <= 971.
Proof.
  rewrite leb_spec, ltb_spec. pose proof (Prim2SF_valid x) as Hvalid.
  set (lo := Prim2SF 0x1p-1018). vm_compute in lo. subst lo.
  set (inf := Prim2SF infinity). vm_compute in inf. subst inf.
  destruct (Prim2SF x) as [[]|[]| |[] m e]; intros Hle Hlt;
    try (vm_compute in Hle; discriminate); try (vm_compute in Hlt; discriminate).
    unfold SFleb, SFcompare in Hle.
    assert (He : -1070 <= e) by (destruct (Z.compare_spec (-1070) e); [lia | lia | discriminate]).
    unfold valid_binary, bounded, canonical_mantissa, fexp, emin in Hvalid.
    apply andb_true_iff in Hvalid. destruct Hvalid as [Hc Hb].
    apply Z.eqb_eq in Hc. apply Z.leb_le in Hb. unfold prec, emax in Hc, Hb.
    exists m, e. split; [reflexivity|]. split; [|lia].
    apply normal_mantissa_digits. lia.
Qed.

(** [Math.ceil] of a double in (3, 4). *)
Lemma Math_ceil_4 (q : float) (mq : positive) :
  Prim2SF q = S754_finite false mq (-51) ->
  3 * 2 ^ 51 < Zpos mq < 2 ^ 53 ->
  Js.Math_ceil q = 4%float.
Proof.
  intros Hq Hmq. unfold Js.Math_ceil, Js.Math_floor.
  rewrite opp_spec, Hq. cbn [SFopp negb Js.signed].
  change (0 <=? -51) with false. cbv iota.
  change (- -51) with 51.
  assert (Hn : Z.shiftr (Zneg mq) 51 = -4).
  { rewrite Z.shiftr_div_pow2 by lia. symmetry.
    apply (Z.div_unique (Zneg mq) (2 ^ 51) (-4) (2 ^ 53 - Zpos mq)); lia. }
  rewrite Hn. vm_compute. reflexivity.
Qed.

(** The payback formula on a total between [2^-1018] and the largest
    double. *)
Lemma paybackMonthsOf_normal (total : float) :
  (0x1p-1018 <=? total)%float = true -> (total <? infinity)%float = true ->
  paybackMonthsOf total = 4%float.
Proof.
  intros Hlo Hhi.
  destruct (Prim2SF_normal_range total Hlo Hhi) as (m & e & Htotal & Hm & He).
  unfold paybackMonthsOf.
  set (a := (total / 3.5)%float). set (b := (total / 12)%float).
  assert (Ha : exists ma ta, Prim2SF a = S754_finite false ma (e - 2 + ta)
                 /\ normal_mantissa ma /\ 0 <= ta <= 2
                 /\ (Zpos ma - 1) * 2 ^ ta * 7881299347898368 <= Zpos m * 2 ^ 53
                 /\ Zpos m * 2 ^ 53 < (Zpos ma + 1) * 2 ^ ta * 7881299347898368).
  { unfold a. rewrite div_spec, Htotal.
    set (d := Prim2SF 3.5). vm_compute in d. subst d.
    destruct (SF64div_normal m 7881299347898368 e (-51) Hm ltac:(unfold normal_mantissa; lia)
                ltac:(lia) ltac:(lia)) as (ma & ta & Hres & H).
    exists ma, ta. rewrite Hres. split; [f_equal; lia | exact H]. }
  assert (Hb : exists mb tb, Prim2SF b = S754_finite false mb (e - 4 + tb)
                 /\ normal_mantissa mb /\ 0 <= tb <= 2
                 /\ (Zpos mb - 1) * 2 ^ tb * 6755399441055744 <= Zpos m * 2 ^ 53
                 /\ Zpos m * 2 ^ 53 < (Zpos mb + 1) * 2 ^ tb * 6755399441055744).
  { unfold b. rewrite div_spec, Htotal.
    set (d := Prim2SF 12). vm_compute in d. subst d.
    destruct (SF64div_normal m 6755399441055744 e (-49) Hm ltac:(unfold normal_mantissa; lia)
                ltac:(lia) ltac:(lia)) as (mb & tb & Hres & H).
    exists mb, tb. rewrite Hres. split; [f_equal; lia | exact H]. }
  destruct Ha as (ma & ta & Ha & Hma & Hta & Ha1 & Ha2).
  destruct Hb as (mb & tb & Hb & Hmb & Htb & Hb1 & Hb2).
  destruct (SF64div_normal ma mb (e - 2 + ta) (e - 4 + tb) Hma Hmb ltac:(lia) ltac:(lia))
    as (mq & tq & Hq & Hmq & Htq & Hq1 & Hq2).
  rewrite <- Ha, <- Hb, <- div_spec in Hq.
  unfold normal_mantissa in *.
  change (2 ^ 52) with 4503599627370496 in *.
  change (2 ^ 53) with 9007199254740992 in *.
  assert (L1 : (4503599627370496 - 1) * 2 ^ tq * Zpos mb <= Zpos ma * 9007199254740992).
  { apply Z.le_trans with ((Zpos mq - 1) * 2 ^ tq * Zpos mb); [|exact Hq1].
    apply Z.mul_le_mono_nonneg_r; [lia|].
    apply Z.mul_le_mono_nonneg_r; [apply Z.pow_nonneg; lia | lia]. }
  assert (L2 : Zpos ma * 9007199254740992 < 9007199254740992 * 2 ^ tq * Zpos mb).
  { apply Z.lt_le_trans with ((Zpos mq + 1) * 2 ^ tq * Zpos mb); [exact Hq2|].
    apply Z.mul_le_mono_nonneg_r; [lia|].
    apply Z.mul_le_mono_nonneg_r; [apply Z.pow_nonneg; lia | lia]. }
  assert (Hcases : (ta = 0 \/ ta = 1 \/ ta = 2) /\ (tb = 0 \/ tb = 1 \/ tb = 2)
                   /\ (tq = 0 \/ tq = 1 \/ tq = 2)) by lia.
  assert (Hshape : ta - tb + tq = 0 /\ 3 * 2 ^ 51 < Zpos mq).
  { destruct Hcases as ([->| [->| ->]] & [->| [->| ->]] & [->| [->| ->]]);
      change (2 ^ 0) with 1 in *; change (2 ^ 1) with 2 in *; change (2 ^ 2) with 4 in *;
      change (2 ^ 51) with 2251799813685248;
      try lia;
      (split; [lia|]);
      destruct (Z.lt_ge_cases 6755399441055744 (Zpos mq)) as [Hgt|Hle]; try exact Hgt;
      exfalso;
      match type of Hq2 with
      | _ < (_ + 1) * ?k * _ =>
          assert (L3 : Zpos ma * 9007199254740992 < (6755399441055744 + 1) * k * Zpos mb)
            by (apply Z.lt_le_trans with ((Zpos mq + 1) * k * Zpos mb); [exact Hq2|];
                apply Z.mul_le_mono_nonneg_r; [lia|];
                apply Z.mul_le_mono_nonneg_r; lia)
      end; lia. }
  destruct Hshape as [Hshape Hbig].
  apply (Math_ceil_4 _ mq); [|lia].
  rewrite Hq. f_equal. lia.
Qed.

(* ===================================================================== *)
(** * Projection engine *)
(* ===================================================================== *)

(** C9, as the code has it.  The ROI multiple is 3.5 and the payback
    period is [Math.ceil((total / 3.5) / (total / 12))] of the expected
    total; it is 4 for every expected total from [2^-1018] (about 3.6e-307)
    up to the largest finite double, whatever its magnitude. *)
Theorem paybackPeriod_constant (metrics : MetricsSnapshot) :
  let roi := calculateROIProjections metrics in
  let total := totalBenefitExpected roi in
  roiMultiple roi = 3.5%float
  /\ paybackPeriod roi = Js.Math_ceil ((total / 3.5) / (total / 12))%float
  /\ ((0x1p-1018 <=? total)%float = true -> (total <? infinity)%float = true ->
      paybackPeriod roi = 4%float).
Proof.
  cbv zeta. split; [reflexivity|]. split; [reflexivity|].
  intros Hlo Hhi. exact (paybackMonthsOf_normal _ Hlo Hhi).
Qed.

(** On the single paid row of the specification the expected total is 9400
    and the payback period is 4. *)
Lemma paybackPeriod_constant_witness :
  on_completion (sampleMetrics [paidRow]) (fun m =>
    totalBenefitExpected (calculateROIProjections m) = 9400%float
    /\ paybackPeriod (calculateROIProjections m) = 4%float).
Proof.
  destruct (sampleMetrics [paidRow]) as [m|msg] eqn:Hm; [|vm_compute in Hm; discriminate].
  assert (E : Normal m = sampleMetrics [paidRow]) by (symmetry; exact Hm).
  vm_compute in E. injection E as ->. unfold on_completion.
  match goal with
  | |- _ /\ paybackPeriod (calculateROIProjections ?m0) = _ =>
      split; [vm_compute; reflexivity|];
      apply (proj2 (proj2 (paybackPeriod_constant m0))); vm_compute; reflexivity
  end.
Defined.

(** On the tiny rejected claim the expected total is 31 units of the
    smallest subnormal, its parts round to 9 and 3 units, and the payback
    period is 3. *)
Lemma paybackPeriod_subnormal_total :
  on_completion (sampleMetrics [tinyRejectedRow]) (fun m =>
    Js.gt (totalBenefitExpected (calculateROIProjections m)) 0%float = true
    /\ Js.isFinite (totalBenefitExpected (calculateROIProjections m)) = true
    /\ paybackPeriod (calculateROIProjections m) = 3%float).
Proof. vm_compute. repeat split; reflexivity. Qed.

(** On the 310-digit claim the expected total is [Infinity] and the
    payback period is NaN. *)
Lemma paybackPeriod_infinite_total :
  on_completion (sampleMetrics [hugeDelayedRow]) (fun m =>
    totalBenefitExpected (calculateROIProjections m) = infinity
    /\ paybackPeriod (calculateROIProjections m) = nan).
Proof. vm_compute. split; reflexivity. Qed.

(** C9 as stated fails: a positive expected total does not always give a
    payback period of 4. *)
Lemma paybackPeriod_not_always_4 : ~ payback_is_4_for_positive_totals.
Proof.
  intros Hall. pose proof paybackPeriod_subnormal_total as Hsub.
  destruct (sampleMetrics [tinyRejectedRow]) as [m|msg]; [|exact Hsub].
  unfold on_completion in Hsub. destruct Hsub as (Hpos & _ & H3).
  specialize (Hall m Hpos). rewrite H3 in Hall.
  apply (f_equal (fun x => (x =? 4)%float)) in Hall. vm_compute in Hall. discriminate.
Qed.

(* ===================================================================== *)
(** * The rows behind each claim *)
(* ===================================================================== *)

Lemma get_own_set {A : Type} (o : JsObject.t A) (key key' : string) (a : A) :
  JsObject.get_own (JsObject.set o key a) key'
  = if String.eqb key key' then Some a else JsObject.get_own o key'.
Proof.
  induction o as [|[k b] o IH]; simpl.
  - reflexivity.
  - destruct (String.eqb_spec k key) as [->|Hk]; simpl.
    + destruct (String.eqb key key'); reflexivity.
    + destruct (String.eqb_spec k key') as [->|Hk'].
      * destruct (String.eqb_spec key key'); [congruence|reflexivity].
      * exact IH.
Qed.

Lemma In_get_own {A : Type} (o : JsObject.t A) (key : string) (a : A) :
  List.NoDup (List.map fst o) -> In (key, a) o -> JsObject.get_own o key = Some a.
Proof.
  induction o as [|[k b] o IH]; simpl; [tauto|].
  intros Hnd [Heq|Hin].
  - injection Heq as -> ->. now rewrite String.eqb_refl.
  - inversion_clear Hnd as [|? ? Hk Hnd'].
    destruct (String.eqb_spec k key) as [->|_].
    + exfalso. apply Hk. apply (List.in_map fst) in Hin. exact Hin.
    + now apply IH.
Qed.

Lemma addKey_NoDup (keys : list string) (key : string) :
  List.NoDup keys -> List.NoDup (addKey keys key).
Proof.
  intros Hnd. unfold addKey. destruct (seen key keys) eqn:Hseen; [exact Hnd|].
  apply List.NoDup_app; [exact Hnd | repeat constructor; simpl; tauto |].
  intros x Hx [<-|[]]. apply seen_In in Hx. congruence.
Qed.

(** The callback of the [reduce], by the TID of the row. *)
Lemma groupStep_cases (acc : JsObject.t Claim.t) (row : Row.t) :
  groupStep acc row
  = match ownTID row with
    | [] => Normal acc
    | tid :: _ =>
        match JsObject.get_own acc tid with
        | Some c => Normal (JsObject.set acc tid (addRow c row))
        | None =>
            if JsObject.inherited tid
            then TypeError "Cannot read properties of undefined (reading 'push')"
            else Normal (JsObject.set acc tid (addRow (initialClaim row) row))
        end
    end.
Proof.
  unfold groupStep, ownTID, JsObject.get.
  destruct (Row.TID row) as [tid|]; [|reflexivity].
  destruct (String.eqb tid ""); [reflexivity|].
  destruct (JsObject.get_own acc tid); [reflexivity|].
  destruct (JsObject.inherited tid); reflexivity.
Qed.

Lemma rowsOf_cons (tid : string) (row : Row.t) (data : list Row.t) :
  rowsOf tid (row :: data)
  = match Row.TID row with
    | Some t => if String.eqb t tid then row :: rowsOf tid data else rowsOf tid data
    | None => rowsOf tid data
    end.
Proof.
  unfold rowsOf. simpl. destruct (Row.TID row) as [t|]; reflexivity.
Qed.

Lemma rowsOf_TID (tid : string) (data : list Row.t) :
  Forall (fun row => Row.TID row = Some tid) (rowsOf tid data).
Proof.
  apply List.Forall_forall. intros row Hin. apply List.filter_In in Hin.
  destruct Hin as [_ Hrow]. destruct (Row.TID row) as [t|]; [|discriminate].
  apply String.eqb_eq in Hrow. now subst.
Qed.

(** The property of a TID after the [reduce]: the property it had, with
    the rows of the TID added in input order, or the claim those rows
    build up. *)
Lemma groupReduce_get_own (tid : string) (data : list Row.t) :
  tid <> "" ->
  forall acc acc',
    groupReduce acc data = Normal acc' ->
    JsObject.get_own acc' tid
    = match JsObject.get_own acc tid with
      | Some c => Some (List.fold_left addRow (rowsOf tid data) c)
      | None =>
          match rowsOf tid data with
          | [] => None
          | first :: rest => Some (claimOf first rest)
          end
      end.
Proof.
  intros Hne. induction data as [|row data IH]; intros acc acc' Hred.
  - simpl in Hred. injection Hred as <-.
    simpl. now destruct (JsObject.get_own acc tid).
  - simpl in Hred. rewrite groupStep_cases in Hred. rewrite rowsOf_cons.
    unfold ownTID in Hred. destruct (Row.TID row) as [t|] eqn:Htid;
      [|now apply IH].
    destruct (String.eqb_spec t "") as [->|Ht].
    + destruct (String.eqb_spec "" tid) as [E|_]; [congruence|now apply IH].
    + destruct (JsObject.get_own acc t) as [c|] eqn:Hget.
      * apply IH in Hred. rewrite Hred, get_own_set.
        destruct (String.eqb_spec t tid) as [->|_]; [|reflexivity].
        now rewrite Hget.
      * destruct (JsObject.inherited t); [discriminate|].
        apply IH in Hred. rewrite Hred, get_own_set.
        destruct (String.eqb_spec t tid) as [->|_]; [|reflexivity].
        now rewrite Hget.
Qed.

Lemma groupReduce_get_own_empty (data : list Row.t) :
  forall acc acc',
    groupReduce acc data = Normal acc' ->
    JsObject.get_own acc' "" = JsObject.get_own acc "".
Proof.
  induction data as [|row data IH]; intros acc acc' Hred; simpl in Hred.
  - now injection Hred as <-.
  - rewrite groupStep_cases in Hred. unfold ownTID in Hred.
    destruct (Row.TID row) as [t|]; [|now apply IH].
    destruct (String.eqb_spec t "") as [E|Ht]; [now apply IH|].
    assert (Hset : forall c, JsObject.get_own (JsObject.set acc t c) ""
                             = JsObject.get_own acc "").
    { intros c. rewrite get_own_set.
      destruct (String.eqb_spec t ""); [contradiction|reflexivity]. }
    destruct (JsObject.get_own acc t) as [c|].
    + apply IH in Hred. now rewrite Hred, Hset.
    + destruct (JsObject.inherited t); [discriminate|].
      apply IH in Hred. now rewrite Hred, Hset.
Qed.

Lemma groupReduce_NoDup (data : list Row.t) :
  forall acc acc',
    List.NoDup (List.map fst acc) ->
    groupReduce acc data = Normal acc' ->
    List.NoDup (List.map fst acc').
Proof.
  induction data as [|row data IH]; intros acc acc' Hnd Hred; simpl in Hred.
  - now injection Hred as <-.
  - rewrite groupStep_cases in Hred.
    destruct (ownTID row) as [|tid _]; [now apply (IH acc)|].
    destruct (JsObject.get_own acc tid) as [c|].
    + apply IH in Hred; [exact Hred|]. rewrite set_keys. now apply addKey_NoDup.
    + destruct (JsObject.inherited tid); [discriminate|].
      apply IH in Hred; [exact Hred|]. rewrite set_keys. now apply addKey_NoDup.
Qed.

Lemma fold_addRow_built (rows : list Row.t) :
  forall c,
    let c' := List.fold_left addRow rows c in
    Claim.columns c' = Claim.columns c
    /\ Claim.Date_of_Admission c' = Claim.Date_of_Admission c
    /\ Claim.Date_of_Discharge c' = Claim.Date_of_Discharge c
    /\ Claim.Payment_Date c' = Claim.Payment_Date c
    /\ Claim.components c' = (Claim.components c ++ List.map componentOf rows)%list
    /\ Claim.Pkg_Rate c'
       = List.fold_left PrimFloat.add (List.map Row.Pkg_Rate rows) (Claim.Pkg_Rate c)
    /\ Claim.Approved_Amount c'
       = List.fold_left PrimFloat.add (List.map Row.Approved_Amount rows)
                        (Claim.Approved_Amount c)
    /\ Claim.Actual_Paid_Amount c'
       = List.fold_left PrimFloat.add (List.map Row.Actual_Paid_Amount rows)
                        (Claim.Actual_Paid_Amount c)
    /\ Claim.Query_Raised c'
       = List.fold_left Js.Math_max (List.map Row.Query_Raised rows)
                        (Claim.Query_Raised c)
    /\ Claim.Days_to_Payment c'
       = List.fold_left Js.Math_max (List.map Row.Days_to_Payment rows)
                        (Claim.Days_to_Payment c).
Proof.
  induction rows as [|row rows IH]; intros c; simpl.
  - rewrite app_nil_r. tauto.
  - destruct (IH (addRow c row))
      as (Hcol & Hadm & Hdis & Hpay & Hcomp & Hrate & Happ & Hpaid & Hq & Hd).
    simpl in *. rewrite Hcomp, <- app_assoc. simpl. tauto.
Qed.

Lemma claimOf_built (first : Row.t) (rest : list Row.t) :
  built_from (claimOf first rest) first (first :: rest).
Proof.
  unfold built_from, claimOf.
  destruct (fold_addRow_built (first :: rest) (initialClaim first))
    as (Hcol & Hadm & Hdis & Hpay & Hcomp & Hrate & Happ & Hpaid & Hq & Hd).
  cbv zeta in *. tauto.
Qed.

Lemma groupReduce_claims (data : list Row.t) (acc : JsObject.t Claim.t) :
  groupReduce [] data = Normal acc ->
  Forall (fun p => fst p <> ""
                   /\ exists first rest,
                        rowsOf (fst p) data = first :: rest
                        /\ snd p = claimOf first rest) acc.
Proof.
  intros Hred. apply List.Forall_forall. intros [tid c] Hin. simpl.
  assert (Hget : JsObject.get_own acc tid = Some c).
  { apply In_get_own; [|exact Hin].
    apply (groupReduce_NoDup data [] acc); [constructor|exact Hred]. }
  assert (Hne : tid <> "").
  { intros ->. rewrite (groupReduce_get_own_empty data [] acc Hred) in Hget.
    discriminate. }
  split; [exact Hne|].
  rewrite (groupReduce_get_own tid data Hne [] acc Hred) in Hget. simpl in Hget.
  destruct (rowsOf tid data) as [|first rest]; [discriminate|].
  injection Hget as <-. now exists first, rest.
Qed.

(** X1.  Every claim that [groupDataByTID] returns is built from the rows
    of one non-empty TID, of which there is at least one: its columns and
    its three dates are those of the first such row, its components are
    the rows of the TID in input order, its three amounts are their sums
    from 0 in that order, Query Raised is their maximum with 0 and Days
    to Payment their maximum, both taken by [Math.max] in input order. *)
Theorem groupDataByTID_rows (data : list Row.t) (claims : list Claim.t) :
  groupDataByTID data = Normal claims ->
  Forall (fun c => exists tid first rest,
                     tid <> ""
                     /\ rowsOf tid data = first :: rest
                     /\ built_from c first (first :: rest)) claims.
Proof.
  unfold groupDataByTID.
  destruct (groupReduce [] data) as [acc|msg] eqn:Hred; [|discriminate].
  intros [= <-]. apply values_Forall.
  eapply List.Forall_impl; [|exact (groupReduce_claims data acc Hred)].
  intros [tid c] (Hne & first & rest & Hrows & Hc). simpl in *.
  exists tid, first, rest. subst c. auto using claimOf_built.
Qed.

(** The theorem on three rows of two TIDs. *)
Lemma groupDataByTID_rows_witness :
  on_completion (groupDataByTID (preprocessMAAClaims sampleDateText rowsSharedTID))
    (Forall (fun c => exists tid first rest,
                        tid <> ""
                        /\ rowsOf tid (preprocessMAAClaims sampleDateText rowsSharedTID)
                           = first :: rest
                        /\ built_from c first (first :: rest))).
Proof.
  destruct (groupDataByTID (preprocessMAAClaims sampleDateText rowsSharedTID))
    as [claims|msg] eqn:Hgroup; [|vm_compute in Hgroup; discriminate].
  exact (groupDataByTID_rows _ claims Hgroup).
Defined.

(* ===================================================================== *)
(** * Every row with a TID is a component of one claim *)
(* ===================================================================== *)

Lemma allComponents_set_own (acc : JsObject.t Claim.t) (tid : string)
      (c : Claim.t) (row : Row.t) :
  JsObject.get_own acc tid = Some c ->
  Permutation (allComponents (JsObject.set acc tid (addRow c row)))
              (componentOf row :: allComponents acc).
Proof.
  unfold allComponents. induction acc as [|[k b] acc IH]; simpl; [discriminate|].
  destruct (String.eqb k tid); simpl.
  - intros [= ->]. rewrite <- app_assoc. simpl.
    symmetry. apply Permutation_middle.
  - intros Hget. rewrite (IH Hget). symmetry. apply Permutation_middle.
Qed.

Lemma allComponents_set_new (acc : JsObject.t Claim.t) (tid : string) (c : Claim.t) :
  JsObject.get_own acc tid = None ->
  allComponents (JsObject.set acc tid c) = (allComponents acc ++ Claim.components c)%list.
Proof.
  unfold allComponents. induction acc as [|[k b] acc IH]; simpl.
  - now rewrite app_nil_r.
  - destruct (String.eqb k tid); [discriminate|]. simpl.
    intros Hget. now rewrite (IH Hget), app_assoc.
Qed.

Lemma hasTID_ownTID (row : Row.t) :
  hasTID row = match ownTID row with [] => false | _ :: _ => true end.
Proof.
  unfold hasTID, ownTID, truthy_text. destruct (Row.TID row) as [tid|]; [|reflexivity].
  now destruct (String.eqb tid "").
Qed.

Lemma groupReduce_components (data : list Row.t) :
  forall acc acc',
    groupReduce acc data = Normal acc' ->
    Permutation (allComponents acc')
                (allComponents acc ++ List.map componentOf (List.filter hasTID data)).
Proof.
  induction data as [|row data IH]; intros acc acc' Hred; simpl in Hred.
  - injection Hred as <-. simpl. now rewrite app_nil_r.
  - rewrite groupStep_cases in Hred. simpl. rewrite hasTID_ownTID.
    destruct (ownTID row) as [|tid _]; [now apply IH|].
    simpl. destruct (JsObject.get_own acc tid) as [c|] eqn:Hget.
    + rewrite (IH _ _ Hred), (allComponents_set_own acc tid c row Hget).
      apply Permutation_middle.
    + destruct (JsObject.inherited tid); [discriminate|].
      rewrite (IH _ _ Hred), (allComponents_set_new acc tid _ Hget).
      simpl. rewrite <- app_assoc. reflexivity.
Qed.

Lemma flat_map_map_snd {A B : Type} (f : A -> list B) (l : list (string * A)) :
  List.flat_map f (List.map snd l) = List.flat_map (fun p => f (snd p)) l.
Proof.
  induction l as [|p l IH]; simpl; [reflexivity|]. now rewrite IH.
Qed.

(** X2.  The components of the claims that [groupDataByTID] returns are,
    up to their order, the components of the rows that have a TID, one
    for each such row: no row with a TID is dropped or counted twice, and
    no row without one becomes a component. *)
Theorem groupDataByTID_components (data : list Row.t) (claims : list Claim.t) :
  groupDataByTID data = Normal claims ->
  Permutation (List.flat_map Claim.components claims)
              (List.map componentOf (List.filter hasTID data)).
Proof.
  unfold groupDataByTID.
  destruct (groupReduce [] data) as [acc|msg] eqn:Hred; [|discriminate].
  intros [= <-]. unfold JsObject.values. rewrite flat_map_map_snd.
  rewrite (Permutation_flat_map _ (own_properties_Permutation acc)).
  exact (groupReduce_components data [] acc Hred).
Qed.

(** The theorem on a paid row with a TID followed by one without. *)
Lemma groupDataByTID_components_witness :
  on_completion
    (groupDataByTID (preprocessMAAClaims sampleDateText [paidRow; orphanPaidRow]))
    (fun claims =>
       Permutation (List.flat_map Claim.components claims)
         (List.map componentOf
            (List.filter hasTID
               (preprocessMAAClaims sampleDateText [paidRow; orphanPaidRow])))).
Proof.
  destruct (groupDataByTID (preprocessMAAClaims sampleDateText [paidRow; orphanPaidRow]))
    as [claims|msg] eqn:Hgroup; [|vm_compute in Hgroup; discriminate].
  exact (groupDataByTID_components _ claims Hgroup).
Defined.

(* ===================================================================== *)
(** * When the aggregator throws *)
(* ===================================================================== *)

Lemma groupReduce_inherited (data : list Row.t) :
  forall acc,
    Forall (fun p => JsObject.inherited (fst p) = false) acc ->
    existsb JsObject.inherited (rowTIDs data) = true ->
    groupReduce acc data
    = TypeError "Cannot read properties of undefined (reading 'push')".
Proof.
  induction data as [|row data IH]; intros acc Hacc Hex; [discriminate|].
  unfold rowTIDs in Hex. simpl in Hex. rewrite existsb_app in Hex.
  simpl. rewrite groupStep_cases.
  destruct (ownTID_cases row) as [[_ Hown] | (tid & _ & _ & Hown)]; rewrite Hown in *.
  - now apply IH.
  - simpl in Hex. rewrite orb_false_r in Hex.
    destruct (JsObject.get_own acc tid) as [c|] eqn:Hget.
    + apply get_own_In in Hget.
      pose proof (proj1 (List.Forall_forall _ _) Hacc _ Hget) as Hk. simpl in Hk.
      rewrite Hk in Hex. apply IH; [|exact Hex].
      apply set_Forall; [exact Hacc | now intros k ->].
    + destruct (JsObject.inherited tid) eqn:Hinh; [reflexivity|].
      apply IH; [|exact Hex].
      apply set_Forall; [exact Hacc | now intros k ->].
Qed.

Lemma groupReduce_outcome (data : list Row.t) :
  if existsb JsObject.inherited (rowTIDs data)
  then groupReduce [] data
       = TypeError "Cannot read properties of undefined (reading 'push')"
  else exists acc, groupReduce [] data = Normal acc.
Proof.
  destruct (existsb JsObject.inherited (rowTIDs data)) eqn:Hex.
  - exact (groupReduce_inherited data [] (List.Forall_nil _) Hex).
  - destruct (groupReduce_keys data []) as (acc & Hred & _); [|now exists acc].
    apply List.Forall_forall. intros tid Hin.
    destruct (JsObject.inherited tid) eqn:Hinh; [|reflexivity].
    assert (existsb JsObject.inherited (rowTIDs data) = true)
      by (apply existsb_exists; eauto).
    congruence.
Qed.

(** X3.  [groupDataByTID] throws exactly when some row has a non-empty
    TID that names a property inherited from [Object.prototype]; the
    error is then the TypeError of [acc[tid].components.push], and
    without such a TID the call returns. *)
Theorem groupDataByTID_throws (data : list Row.t) :
  if existsb JsObject.inherited (rowTIDs data)
  then groupDataByTID data
       = TypeError "Cannot read properties of undefined (reading 'push')"
  else exists claims, groupDataByTID data = Normal claims.
Proof.
  unfold groupDataByTID. pose proof (groupReduce_outcome data) as H.
  destruct (existsb JsObject.inherited (rowTIDs data)).
  - now rewrite H.
  - destruct H as [acc ->]. now exists (JsObject.values acc).
Qed.

(* ===================================================================== *)
(** * What the claim counts count *)
(* ===================================================================== *)

Lemma groupReduce_firstSeen (data : list Row.t) (acc : JsObject.t Claim.t) :
  groupReduce [] data = Normal acc ->
  List.map fst acc = firstSeen (rowTIDs data).
Proof.
  intros Hred.
  destruct (groupReduce_keys data []) as (acc' & Hred' & Hkeys).
  - pose proof (groupReduce_outcome data) as H.
    apply List.Forall_forall. intros tid Hin.
    destruct (JsObject.inherited tid) eqn:Hinh; [|reflexivity].
    assert (Hex : existsb JsObject.inherited (rowTIDs data) = true)
      by (apply existsb_exists; eauto).
    rewrite Hex, Hred in H. discriminate.
  - rewrite Hred in Hred'. injection Hred' as <-.
    rewrite Hkeys, fold_addKey. simpl.
    apply filter_all, List.Forall_forall. reflexivity.
Qed.

Lemma filter_length_Permutation {A : Type} (p : A -> bool) (l l' : list A) :
  Permutation l l' ->
  List.length (List.filter p l) = List.length (List.filter p l').
Proof.
  induction 1 as [|x l l' _ IH|x y l|l l' l'' _ IH1 _ IH2]; simpl.
  - reflexivity.
  - destruct (p x); simpl; now rewrite IH.
  - destruct (p x), (p y); reflexivity.
  - now rewrite IH1.
Qed.

Lemma filter_map_snd {A : Type} (p : A -> bool) (l : list (string * A)) :
  List.filter p (List.map snd l) = List.map snd (List.filter (fun x => p (snd x)) l).
Proof.
  induction l as [|x l IH]; simpl; [reflexivity|].
  destruct (p (snd x)); simpl; now rewrite IH.
Qed.

Lemma filter_ext_Forall {A : Type} (p q : A -> bool) (l : list A) :
  Forall (fun x => p x = q x) l -> List.filter p l = List.filter q l.
Proof.
  induction 1 as [|x l Hx _ IH]; simpl; [reflexivity|]. now rewrite Hx, IH.
Qed.

Lemma claimOf_Status (first : Row.t) (rest : list Row.t) :
  Claim.Status (claimOf first rest) = Row.Status first.
Proof.
  unfold Claim.Status, Row.Status.
  now rewrite (proj1 (claimOf_built first rest)).
Qed.

(** The claims of a given kind of Status are as many as the TIDs whose
    first row has a Status of that kind. *)
Lemma count_by_first_row (q : option string -> bool) (data : list Row.t)
      (claims : list Claim.t) :
  groupDataByTID data = Normal claims ->
  List.length (List.filter (fun c => q (Claim.Status c)) claims)
  = List.length (List.filter (fun tid => q (firstRowStatus data tid))
                             (firstSeen (rowTIDs data))).
Proof.
  unfold groupDataByTID.
  destruct (groupReduce [] data) as [acc|msg] eqn:Hred; [|discriminate].
  intros [= <-]. unfold JsObject.values.
  rewrite filter_map_snd, length_map.
  rewrite (filter_length_Permutation _ _ _ (own_properties_Permutation acc)).
  rewrite <- (groupReduce_firstSeen data acc Hred).
  rewrite <- (map_fst_filter (fun tid => q (firstRowStatus data tid)) acc), length_map.
  f_equal. apply filter_ext_Forall.
  eapply List.Forall_impl; [|exact (groupReduce_claims data acc Hred)].
  intros [tid c] (_ & first & rest & Hrows & Hc). simpl in *.
  unfold firstRowStatus. now rewrite Hrows, Hc, claimOf_Status.
Qed.

Lemma groupDataByTID_length (data : list Row.t) (claims : list Claim.t) :
  groupDataByTID data = Normal claims ->
  List.length claims = List.length (firstSeen (rowTIDs data)).
Proof.
  intros Hgroup.
  pose proof (count_by_first_row (fun _ => true) data claims Hgroup) as H.
  rewrite !filter_all in H by (apply List.Forall_forall; reflexivity).
  exact H.
Qed.

Section CountProperties.

Variable parseDateText : string -> option Date.
Variable toLocaleDateString : Date -> string.

(** X4.  [totalClaims] is the number of distinct non-empty TIDs of the
    rows, whatever the number of rows. *)
Theorem totalClaims_distinct_TIDs (data : list RawRecord) (m : MetricsSnapshot) :
  calculateProposalMetrics parseDateText toLocaleDateString data = Normal m ->
  totalClaims m
  = Js.Number_of_nat
      (List.length (firstSeen (rowTIDs (preprocessMAAClaims parseDateText data)))).
Proof.
  intros Hm.
  destruct (metrics_Normal _ _ _ _ Hm) as (claims & Hgroup & ->).
  simpl. unfold size. now rewrite (groupDataByTID_length _ _ Hgroup).
Qed.

(** X5.  The four counts by status look at the first row of each TID
    only: a claim is counted as paid, rejected, pending or approved when
    the Status of the first row that carries its TID contains "Claim
    Paid", is one of the two rejection statuses, contains "Pending" or
    contains "Approved"; the Status of its later rows plays no part. *)
Theorem status_counts_first_row (data : list RawRecord) (m : MetricsSnapshot) :
  calculateProposalMetrics parseDateText toLocaleDateString data = Normal m ->
  let rows := preprocessMAAClaims parseDateText data in
  let counted (q : option string -> bool) :=
    Js.Number_of_nat
      (List.length (List.filter (fun tid => q (firstRowStatus rows tid))
                                (firstSeen (rowTIDs rows)))) in
  paidClaims m = counted (fun status => status_includes status "Claim Paid")
  /\ rejectedClaims m = counted status_rejected
  /\ pendingClaims m = counted (fun status => status_includes status "Pending")
  /\ approvedClaims m = counted (fun status => status_includes status "Approved").
Proof.
  intros Hm rows counted.
  destruct (metrics_Normal _ _ _ _ Hm) as (claims & Hgroup & ->).
  simpl. unfold count, counted. subst rows.
  rewrite (count_by_first_row (fun status => status_includes status "Claim Paid")
             _ _ Hgroup).
  rewrite (count_by_first_row status_rejected _ _ Hgroup).
  rewrite (count_by_first_row (fun status => status_includes status "Pending")
             _ _ Hgroup).
  rewrite (count_by_first_row (fun status => status_includes status "Approved")
             _ _ Hgroup).
  auto.
Qed.

End CountProperties.

(** The theorem on three rows of two TIDs. *)
Lemma totalClaims_distinct_TIDs_witness :
  on_completion (sampleMetrics rowsSharedTID) (fun m => totalClaims m = 2%float).
Proof.
  destruct (sampleMetrics rowsSharedTID) as [m|msg] eqn:Hm;
    [|vm_compute in Hm; discriminate].
  simpl. rewrite (totalClaims_distinct_TIDs _ _ _ m Hm). vm_compute. reflexivity.
Defined.

(** The theorem on three rows of two TIDs: the claim whose first row is
    paid and whose last row is rejected counts as paid. *)
Lemma status_counts_first_row_witness :
  on_completion (sampleMetrics rowsSharedTID)
    (fun m => paidClaims m = 1%float /\ rejectedClaims m = 0%float
              /\ pendingClaims m = 1%float /\ approvedClaims m = 0%float).
Proof.
  destruct (sampleMetrics rowsSharedTID) as [m|msg] eqn:Hm;
    [|vm_compute in Hm; discriminate].
  simpl. destruct (status_counts_first_row _ _ _ m Hm) as (-> & -> & -> & ->).
  vm_compute. auto.
Defined.

(* ===================================================================== *)
(** * The order of the Numbers *)
(* ===================================================================== *)

Lemma SFltb_rank (x y : spec_float) :
  SFltb x y = true
  <-> x <> S754_nan /\ y <> S754_nan /\ rank_lt (SFrank x) (SFrank y).
Proof.
  unfold SFltb, rank_lt.
  destruct x as [[]|[]| |[] mx ex], y as [[]|[]| |[] my ey]; simpl;
    try (split; [intros H; try discriminate H; repeat split; try discriminate; lia
                | intros (Hx & Hy & H); try reflexivity; try congruence; lia]).
  - change (Pos.compare_cont Eq mx my) with (Pos.compare mx my).
    destruct (Z.compare_spec ex ey); [destruct (Pos.compare_spec mx my)| |]; simpl;
      (split; [intros H'; try discriminate H'; repeat split; try discriminate; lia
              | intros (Hx & Hy & H'); try reflexivity; lia]).
  - change (Pos.compare_cont Eq mx my) with (Pos.compare mx my).
    destruct (Z.compare_spec ex ey); [destruct (Pos.compare_spec mx my)| |]; simpl;
      (split; [intros H'; try discriminate H'; repeat split; try discriminate; lia
              | intros (Hx & Hy & H'); try reflexivity; lia]).
Qed.

Lemma SFeqb_rank (x y : spec_float) :
  SFeqb x y = true
  <-> x <> S754_nan /\ y <> S754_nan /\ rank_eq (SFrank x) (SFrank y).
Proof.
  unfold SFeqb, rank_eq.
  destruct x as [[]|[]| |[] mx ex], y as [[]|[]| |[] my ey]; simpl;
    try (split; [intros H; try discriminate H; repeat split; try discriminate; lia
                | intros (Hx & Hy & H); try reflexivity; try congruence; lia]).
  - change (Pos.compare_cont Eq mx my) with (Pos.compare mx my).
    destruct (Z.compare_spec ex ey); [destruct (Pos.compare_spec mx my)| |]; simpl;
      (split; [intros H'; try discriminate H'; repeat split; try discriminate; lia
              | intros (Hx & Hy & H'); try reflexivity; lia]).
  - change (Pos.compare_cont Eq mx my) with (Pos.compare mx my).
    destruct (Z.compare_spec ex ey); [destruct (Pos.compare_spec mx my)| |]; simpl;
      (split; [intros H'; try discriminate H'; repeat split; try discriminate; lia
              | intros (Hx & Hy & H'); try reflexivity; lia]).
Qed.

Lemma Prim2SF_nan (x : float) : Prim2SF x = S754_nan <-> is_nan x = true.
Proof.
  split; [|apply is_nan_Prim2SF].
  unfold Prim2SF. destruct (is_nan x); [reflexivity|].
  destruct (is_zero x); [discriminate|]. destruct (is_infinity x); [discriminate|].
  destruct (Z.frexp x) as [r ex].
  destruct (shr_fexp prec emax _ _ _) as [mrs e'].
  destruct (shr_m mrs); discriminate.
Qed.

Lemma not_nan_Prim2SF (x : float) : Prim2SF x <> S754_nan <-> is_nan x = false.
Proof.
  pose proof (Prim2SF_nan x) as H. destruct (is_nan x).
  - split; [intros Hx; exfalso; apply Hx; now apply H | discriminate].
  - split; [reflexivity | intros _ Hx; apply H in Hx; discriminate].
Qed.

Lemma ltb_rank (a b : float) :
  (a <? b)%float = true
  <-> is_nan a = false /\ is_nan b = false /\ rank_lt (rank a) (rank b).
Proof.
  rewrite ltb_spec. unfold rank.
  pose proof (SFltb_rank (Prim2SF a) (Prim2SF b)) as H.
  pose proof (not_nan_Prim2SF a). pose proof (not_nan_Prim2SF b). tauto.
Qed.

Lemma eqb_rank (a b : float) :
  (a =? b)%float = true
  <-> is_nan a = false /\ is_nan b = false /\ rank_eq (rank a) (rank b).
Proof.
  rewrite FloatAxioms.eqb_spec. unfold rank.
  pose proof (SFeqb_rank (Prim2SF a) (Prim2SF b)) as H.
  pose proof (not_nan_Prim2SF a). pose proof (not_nan_Prim2SF b). tauto.
Qed.

Lemma ltb_false_rank (a b : float) :
  is_nan a = false -> is_nan b = false ->
  (a <? b)%float = false <-> ~ rank_lt (rank a) (rank b).
Proof.
  intros Ha Hb. pose proof (ltb_rank a b) as H.
  destruct (a <? b)%float.
  - split; [discriminate|]. intros H'. exfalso. apply H'. now apply H.
  - split; [|reflexivity]. intros _ Hlt.
    assert (false = true) by (apply H; auto). discriminate.
Qed.

Lemma ltb_trans (a b c : float) :
  (a <? b)%float = true -> (b <? c)%float = true -> (a <? c)%float = true.
Proof.
  intros Hab Hbc. apply ltb_rank in Hab, Hbc. apply ltb_rank.
  destruct Hab as (Ha & _ & Hab), Hbc as (_ & Hc & Hbc). unfold rank_lt in *.
  split; [exact Ha|]. split; [exact Hc|]. lia.
Qed.

Lemma ltb_false_trans (a b c : float) :
  is_nan a = false -> is_nan b = false -> is_nan c = false ->
  (a <? b)%float = false -> (b <? c)%float = false -> (a <? c)%float = false.
Proof.
  intros Ha Hb Hc Hab Hbc.
  apply ltb_false_rank in Hab, Hbc; try assumption.
  apply ltb_false_rank; try assumption.
  unfold rank_lt in *. lia.
Qed.

(* ===================================================================== *)
(** * The period of analysis *)
(* ===================================================================== *)

Lemma fold_earliest (dates : list Date) :
  Forall (fun d => is_nan d = false) dates ->
  forall first, is_nan first = false ->
    let lo := List.fold_left (fun min date => if Js.lt date min then date else min)
                             dates first in
    (lo = first \/ In lo dates)
    /\ (first <? lo)%float = false
    /\ Forall (fun d => (d <? lo)%float = false) dates.
Proof.
  induction 1 as [|x dates Hx Hdates IH]; intros first Hfirst; simpl.
  - split; [now left|]. split; [apply ltb_irrefl | constructor].
  - change (Js.lt x first) with (x <? first)%float.
    destruct (x <? first)%float eqn:Hlt.
    + destruct (IH x Hx) as (Hin & Hlo & Hall).
      split; [destruct Hin as [E|Hin]; auto|]. split; [|now constructor].
      destruct (first <? _)%float eqn:Hcontra; [|reflexivity].
      now rewrite (ltb_trans _ _ _ Hlt Hcontra) in Hlo.
    + destruct (IH first Hfirst) as (Hin & Hlo & Hall).
      split; [tauto|]. split; [exact Hlo|]. constructor; [|exact Hall].
      apply (ltb_false_trans x first); try assumption.
      destruct Hin as [->|Hin]; [assumption|].
      exact (proj1 (List.Forall_forall _ _) Hdates _ Hin).
Qed.

Lemma fold_latest (dates : list Date) :
  Forall (fun d => is_nan d = false) dates ->
  forall first, is_nan first = false ->
    let hi := List.fold_left (fun max date => if Js.gt date max then date else max)
                             dates first in
    (hi = first \/ In hi dates)
    /\ (hi <? first)%float = false
    /\ Forall (fun d => (hi <? d)%float = false) dates.
Proof.
  induction 1 as [|x dates Hx Hdates IH]; intros first Hfirst; simpl.
  - split; [now left|]. split; [apply ltb_irrefl | constructor].
  - change (Js.gt x first) with (first <? x)%float.
    destruct (first <? x)%float eqn:Hlt.
    + destruct (IH x Hx) as (Hin & Hhi & Hall).
      split; [destruct Hin as [E|Hin]; auto|]. split; [|now constructor].
      destruct (_ <? first)%float eqn:Hcontra; [|reflexivity].
      now rewrite (ltb_trans _ _ _ Hcontra Hlt) in Hhi.
    + destruct (IH first Hfirst) as (Hin & Hhi & Hall).
      split; [tauto|]. split; [exact Hhi|]. constructor; [|exact Hall].
      assert (Hnan : is_nan (List.fold_left
                               (fun max date => if Js.gt date max then date else max)
                               dates first) = false).
      { destruct Hin as [->|Hin]; [assumption|].
        exact (proj1 (List.Forall_forall _ _) Hdates _ Hin). }
      now apply (ltb_false_trans _ first x).
Qed.

Lemma validDate_not_NaN (rows : list Row.t) :
  Forall (fun d => is_nan d = false)
         (List.flat_map (fun row => validDate (Row.Date_of_Admission row)) rows).
Proof.
  induction rows as [|row rows IH]; simpl; [constructor|].
  apply Forall_app. split; [|exact IH].
  unfold validDate, Js.isNaN. destruct (Row.Date_of_Admission row) as [t|];
    [|constructor].
  destruct (is_nan t) eqn:Ht; repeat constructor. exact Ht.
Qed.

Section PeriodProperties.

Variable parseDateText : string -> option Date.
Variable toLocaleDateString : Date -> string.

(** X6.  Over the admission dates that parse to a valid date, of all the
    rows: without any, [minDate] and [maxDate] are [null], the range
    text is "N/A" and [monthsSpan] is 12; otherwise [minDate] and
    [maxDate] are two of these dates, no date is earlier than [minDate]
    and none is later than [maxDate]. *)
Theorem analysis_period (data : list RawRecord) (m : MetricsSnapshot) :
  calculateProposalMetrics parseDateText toLocaleDateString data = Normal m ->
  let dates :=
    List.flat_map (fun row => validDate (Row.Date_of_Admission row))
                  (preprocessMAAClaims parseDateText data) in
  match dates with
  | [] => minDate m = None /\ maxDate m = None
          /\ dateRangeText m = "N/A" /\ monthsSpan m = 12%float
  | _ :: _ =>
      exists lo hi,
        minDate m = Some lo /\ maxDate m = Some hi
        /\ In lo dates /\ In hi dates
        /\ Forall (fun d => Js.lt d lo = false /\ Js.gt d hi = false) dates
  end.
Proof.
  intros Hm dates.
  destruct (metrics_Normal _ _ _ _ Hm) as (claims & _ & ->).
  pose proof (validDate_not_NaN (preprocessMAAClaims parseDateText data)) as Hnan.
  simpl. fold dates in Hnan |- *.
  destruct dates as [|first rest]; [auto|].
  pose proof (Forall_inv Hnan) as Hfirst.
  destruct (fold_earliest (first :: rest) Hnan first Hfirst) as (Hlo & _ & Hmin).
  destruct (fold_latest (first :: rest) Hnan first Hfirst) as (Hhi & _ & Hmax).
  eexists _, _. split; [reflexivity|]. split; [reflexivity|].
  split; [destruct Hlo as [->|Hlo]; [now left | exact Hlo]|].
  split; [destruct Hhi as [->|Hhi]; [now left | exact Hhi]|].
  apply List.Forall_forall. intros d Hd. split.
  - exact (proj1 (List.Forall_forall _ _) Hmin d Hd).
  - exact (proj1 (List.Forall_forall _ _) Hmax d Hd).
Qed.

(** X7.  [monthsSpan], by which the monthly claim value is divided, is
    never below 1 and never zero. *)
Theorem monthsSpan_at_least_1 (data : list RawRecord) (m : MetricsSnapshot) :
  calculateProposalMetrics parseDateText toLocaleDateString data = Normal m ->
  Js.lt (monthsSpan m) 1%float = false /\ Js.strict_eq (monthsSpan m) 0%float = false.
Proof.
  intros Hm. destruct (metrics_Normal _ _ _ _ Hm) as (claims & _ & ->).
  assert (H : Js.lt (monthsSpan (metricsOf toLocaleDateString
                                   (preprocessMAAClaims parseDateText data) claims))
                    1%float = false).
  { simpl. destruct (earliest _) as [lo|]; [|reflexivity].
    destruct (latest _) as [hi|]; [|reflexivity]. apply Math_max_not_below. }
  split; [exact H|].
  unfold Js.lt, Js.strict_eq in *.
  destruct (_ =? 0)%float eqn:Heq; [|reflexivity].
  apply eqb_rank in Heq. destruct Heq as (Hx & _ & Heq).
  apply ltb_false_rank in H; [|exact Hx|reflexivity].
  exfalso. apply H. unfold rank_lt, rank_eq in *.
  change (rank 0%float) with (0, 0, 0) in Heq.
  change (rank 1%float) with (1, -52, 4503599627370496) in *. simpl in *. lia.
Qed.

End PeriodProperties.

(** The theorem on three rows, two of them with a Date of Admission. *)
Lemma analysis_period_witness :
  on_completion (sampleMetrics admittedRows)
    (fun m => exists lo hi,
                minDate m = Some lo /\ maxDate m = Some hi
                /\ In lo [1736467200000%float; 1735689600000%float]
                /\ In hi [1736467200000%float; 1735689600000%float]
                /\ Forall (fun d => Js.lt d lo = false /\ Js.gt d hi = false)
                          [1736467200000%float; 1735689600000%float]).
Proof.
  destruct (sampleMetrics admittedRows) as [m|msg] eqn:Hm;
    [|vm_compute in Hm; discriminate].
  exact (analysis_period _ _ _ m Hm).
Defined.

(** The theorem on the same rows. *)
Lemma monthsSpan_at_least_1_witness :
  on_completion (sampleMetrics admittedRows)
    (fun m => Js.lt (monthsSpan m) 1%float = false
              /\ Js.strict_eq (monthsSpan m) 0%float = false).
Proof.
  destruct (sampleMetrics admittedRows) as [m|msg] eqn:Hm;
    [|vm_compute in Hm; discriminate].
  exact (monthsSpan_at_least_1 _ _ _ m Hm).
Defined.

(* ===================================================================== *)
(** * Claims with and without a query *)
(* ===================================================================== *)

Lemma or_default_not_NaN (x d : float) :
  is_nan d = false -> is_nan (Js.or_default x d) = false.
Proof.
  intros Hd. unfold Js.or_default, Js.truthy.
  destruct (is_nan x) eqn:Hx; simpl; [exact Hd|].
  destruct (is_zero x); simpl; [exact Hd | exact Hx].
Qed.

Lemma parseNumber_not_NaN (value : option string) : is_nan (parseNumber value) = false.
Proof.
  unfold parseNumber. destruct value as [s|]; [|reflexivity].
  destruct (String.eqb s ""); [reflexivity|]. now apply or_default_not_NaN.
Qed.

Lemma eqb_false_rank (a b : float) :
  is_nan a = false -> is_nan b = false ->
  (a =? b)%float = false <-> ~ rank_eq (rank a) (rank b).
Proof.
  intros Ha Hb. pose proof (eqb_rank a b) as H.
  destruct (a =? b)%float.
  - split; [discriminate|]. intros H'. exfalso. apply H'. now apply H.
  - split; [|reflexivity]. intros _ Heq.
    assert (false = true) by (apply H; auto). discriminate.
Qed.

Lemma not_negative_query (q : float) :
  not_negative q -> Js.strict_eq q 0%float = negb (Js.gt q 0%float).
Proof.
  unfold not_negative, Js.isNaN, Js.lt, Js.gt, Js.strict_eq. intros [Hnan Hlt].
  apply ltb_false_rank in Hlt; [|exact Hnan|reflexivity].
  destruct (0 <? q)%float eqn:Hgt; simpl.
  - apply ltb_rank in Hgt. destruct Hgt as (_ & _ & Hgt).
    apply eqb_false_rank; [exact Hnan|reflexivity|].
    unfold rank_lt, rank_eq in *. change (rank 0%float) with (0, 0, 0) in *.
    simpl in *. lia.
  - apply ltb_false_rank in Hgt; [|reflexivity|exact Hnan].
    apply eqb_rank. split; [exact Hnan|]. split; [reflexivity|].
    unfold rank_lt, rank_eq in *. change (rank 0%float) with (0, 0, 0) in *.
    simpl in *. lia.
Qed.

Lemma Math_max_not_negative (a x : float) :
  not_negative a -> is_nan x = false -> not_negative (Js.Math_max a x).
Proof.
  unfold not_negative, Js.isNaN, Js.lt. intros [Ha Hlt] Hx.
  unfold Js.Math_max. rewrite Ha, Hx. simpl.
  destruct (a <? x)%float eqn:Hax.
  - split; [exact Hx|]. destruct (x <? 0)%float eqn:Hx0; [|reflexivity].
    now rewrite (ltb_trans _ _ _ Hax Hx0) in Hlt.
  - destruct (x <? a)%float eqn:Hxa; [now split|].
    destruct (get_sign a); [|now split]. split; [exact Hx|].
    apply (ltb_false_trans x a 0%float); auto.
Qed.

Lemma fold_Math_max_not_negative (xs : list float) :
  Forall (fun x => is_nan x = false) xs ->
  forall a, not_negative a -> not_negative (List.fold_left Js.Math_max xs a).
Proof.
  induction 1 as [|x xs Hx _ IH]; intros a Ha; simpl; [exact Ha|].
  apply IH. now apply Math_max_not_negative.
Qed.

Lemma filter_negb_length {A : Type} (p q : A -> bool) (l : list A) :
  Forall (fun x => q x = negb (p x)) l ->
  (List.length (List.filter p l) + List.length (List.filter q l))%nat = List.length l.
Proof.
  induction 1 as [|x l Hx _ IH]; simpl; [reflexivity|].
  rewrite Hx. destruct (p x); simpl; lia.
Qed.

Section QueryProperties.

Variable parseDateText : string -> option Date.
Variable toLocaleDateString : Date -> string.

Lemma preprocess_Query_Raised (data : list RawRecord) :
  Forall (fun row => is_nan (Row.Query_Raised row) = false)
         (preprocessMAAClaims parseDateText data).
Proof.
  unfold preprocessMAAClaims. apply List.Forall_forall. intros row Hin.
  apply List.in_map_iff in Hin. destruct Hin as (raw & <- & _).
  apply parseNumber_not_NaN.
Qed.

(** The Query Raised of a claim is a Number that is neither NaN nor
    below zero, whatever the rows hold. *)
Lemma claims_Query_Raised (data : list RawRecord) (claims : list Claim.t) :
  groupDataByTID (preprocessMAAClaims parseDateText data) = Normal claims ->
  Forall (fun c => not_negative (Claim.Query_Raised c)) claims.
Proof.
  unfold groupDataByTID.
  destruct (groupReduce [] _) as [acc|msg] eqn:Hred; [|discriminate].
  intros [= <-]. apply values_Forall.
  eapply List.Forall_impl; [|exact (groupReduce_claims _ acc Hred)].
  intros [tid c] (_ & first & rest & Hrows & ->). simpl in *.
  destruct (claimOf_built first rest) as (_ & _ & _ & _ & _ & _ & _ & _ & -> & _).
  apply fold_Math_max_not_negative; [|now split].
  apply List.Forall_forall. intros x Hx. apply List.in_map_iff in Hx.
  destruct Hx as (row & <- & Hrow). rewrite <- Hrows in Hrow.
  apply List.filter_In in Hrow. destruct Hrow as [Hrow _].
  exact (proj1 (List.Forall_forall _ _) (preprocess_Query_Raised data) row Hrow).
Qed.

(** X8.  Every claim is counted either in [claimsWithQuery] or in
    [claimsWithoutQuery] and never in both: the two counts add up to
    [totalClaims]. *)
Theorem query_counts_partition (data : list RawRecord) (m : MetricsSnapshot) :
  calculateProposalMetrics parseDateText toLocaleDateString data = Normal m ->
  exists withQuery withoutQuery : nat,
    claimsWithQuery m = Js.Number_of_nat withQuery
    /\ claimsWithoutQuery m = Js.Number_of_nat withoutQuery
    /\ totalClaims m = Js.Number_of_nat (withQuery + withoutQuery).
Proof.
  intros Hm. destruct (metrics_Normal _ _ _ _ Hm) as (claims & Hgroup & ->).
  eexists _, _. split; [reflexivity|]. split; [reflexivity|].
  simpl. unfold size. f_equal. symmetry. apply filter_negb_length.
  eapply List.Forall_impl; [|exact (claims_Query_Raised data claims Hgroup)].
  intros c Hc. now apply not_negative_query.
Qed.

End QueryProperties.

(** The theorem on three rows of two TIDs, one of them with a query. *)
Lemma query_counts_partition_witness :
  on_completion (sampleMetrics queriedRows)
    (fun m => exists withQuery withoutQuery : nat,
                claimsWithQuery m = Js.Number_of_nat withQuery
                /\ claimsWithoutQuery m = Js.Number_of_nat withoutQuery
                /\ totalClaims m = Js.Number_of_nat (withQuery + withoutQuery)).
Proof.
  destruct (sampleMetrics queriedRows) as [m|msg] eqn:Hm;
    [|vm_compute in Hm; discriminate].
  exact (query_counts_partition _ _ _ m Hm).
Defined.

(* ===================================================================== *)
(** * Text of the proposal *)
(* ===================================================================== *)

Lemma truncateText_cases (text : CodeUnits) (maxLength : Z) :
  3 <= maxLength ->
  (Z.of_nat (List.length text) <= maxLength /\ truncateText text maxLength = text)
  \/ (maxLength < Z.of_nat (List.length text)
      /\ truncateText text maxLength
         = (List.firstn (Z.to_nat (maxLength - 3)) text ++ units "...")%list
      /\ Z.of_nat (List.length (truncateText text maxLength)) = maxLength).
Proof.
  intros Hmax. unfold truncateText.
  destruct (Z.leb_spec (Z.of_nat (List.length text)) maxLength) as [Hle|Hgt].
  - left. now rewrite orb_true_r.
  - right. destruct text as [|u rest]; [simpl in Hgt; lia|]. rewrite orb_false_l.
    split; [exact Hgt|]. split; [reflexivity|].
    rewrite length_app, List.firstn_length_le by lia.
    change (List.length (units "...")) with 3%nat. lia.
Qed.

(** X9.  For a limit of at least 3, [truncateText] returns a string of
    at most [maxLength] code units: the text itself when it is that
    short, and otherwise its first [maxLength - 3] code units followed by
    three dots, [maxLength] code units in all. *)
Theorem truncateText_bound (text : CodeUnits) (maxLength : Z) :
  3 <= maxLength ->
  Z.of_nat (List.length (truncateText text maxLength)) <= maxLength
  /\ (Z.of_nat (List.length text) <= maxLength -> truncateText text maxLength = text)
  /\ (maxLength < Z.of_nat (List.length text) ->
      truncateText text maxLength
      = (List.firstn (Z.to_nat (maxLength - 3)) text ++ units "...")%list
      /\ Z.of_nat (List.length (truncateText text maxLength)) = maxLength).
Proof.
  intros Hmax.
  destruct (truncateText_cases text maxLength Hmax) as [[Hle E]|(Hgt & E & Hlen)].
  - rewrite E. split; [exact Hle|]. split; [reflexivity | lia].
  - split; [lia|]. split; [lia|]. intros _. split; [exact E | exact Hlen].
Qed.

(** The theorem on a text of five code units and the limit 4. *)
Lemma truncateText_bound_witness :
  truncateText (units "abcde") 4 = units "a..."
  /\ Z.of_nat (List.length (truncateText (units "abcde") 4)) <= 4.
Proof.
  split; [reflexivity|].
  apply (truncateText_bound (units "abcde") 4). lia.
Defined.

(** X10.  Whatever the request parameters hold, the hospital name, the
    location, the contact person, the email and the title that go into
    the template are at most 40, 60, 30, 40 and 30 code units long. *)
Theorem basicInfo_lengths (additionalParams : AdditionalParams) :
  let info := basicInfo additionalParams in
  (List.length (templateHospitalName info) <= 40)%nat
  /\ (List.length (templateHospitalLocation info) <= 60)%nat
  /\ (List.length (templateContactPerson info) <= 30)%nat
  /\ (List.length (templateEmail info) <= 40)%nat
  /\ (List.length (templateTitle info) <= 30)%nat.
Proof.
  assert (H : forall text maxLength,
             3 <= maxLength ->
             (List.length (truncateText text maxLength) <= Z.to_nat maxLength)%nat).
  { intros text maxLength Hmax.
    destruct (truncateText_cases text maxLength Hmax) as [[Hle E]|(_ & _ & Hlen)];
      [rewrite E|]; lia. }
  simpl.
  split; [apply (H _ 40); lia|]. split; [apply (H _ 60); lia|].
  split; [apply (H _ 30); lia|]. split; [apply (H _ 40); lia | apply (H _ 30); lia].
Qed.

(* ===================================================================== *)
(** * The name of the PDF file *)
(* ===================================================================== *)





(* ===================================================================== *)
(** * The sign of a parsed number *)
(* ===================================================================== *)

Lemma binary_round_sign (s : bool) (m : positive) (e : Z) :
  has_sign s (binary_round prec emax s m e).
Proof.
  unfold binary_round. destruct (shl_align m e _) as [mz ez].
  apply binary_round_aux_sign. lia.
Qed.

Lemma SFldexp_sign (s : bool) (x : spec_float) (e : Z) :
  has_sign s x -> has_sign s (SFldexp prec emax x e).
Proof.
  destruct x as [s'|s'| |s' m ex]; simpl; try tauto.
  intros ->. apply binary_round_sign.
Qed.

Lemma Number_of_ratio_sign (n d : Z) : has_sign false (Prim2SF (Js.Number_of_ratio n d)).
Proof.
  unfold Js.Number_of_ratio. destruct ((n <=? 0) || (d <=? 0)); [reflexivity|].
  cbv zeta. rewrite Z_ldexp_spec. apply SFldexp_sign. rewrite of_uint63_spec.
  match goal with
  | |- context [Uint63Axioms.to_Z ?i] => pose proof (Uint63.to_Z_bounded i) as Hb
  end.
  destruct (Uint63Axioms.to_Z _) as [|p|p]; simpl; [reflexivity | | lia].
  apply binary_round_sign.
Qed.

Lemma has_sign_not_below_zero (x : float) :
  has_sign false (Prim2SF x) -> (x <? 0)%float = false.
Proof.
  rewrite ltb_spec. change (Prim2SF 0%float) with (S754_zero false).
  destruct (Prim2SF x) as [s|s| |s m e]; simpl; try tauto; now intros ->.
Qed.

Lemma parseFloat_sign (s : string) :
  (parseFloat s <? 0)%float = true -> exists rest, s = String "-"%char rest.
Proof.
  intros Hlt. destruct s as [|c s]; [vm_compute in Hlt; discriminate|].
  destruct (Ascii.ascii_dec c "-"%char) as [->|Hne]; [now exists s|].
  exfalso. revert Hlt. unfold parseFloat.
  assert (E : (match String c s with
               | String "-"%char rest => (true, rest)
               | _ => (false, String c s)
               end) = (false, String c s)).
  { destruct c as [[] [] [] [] [] [] [] []]; try reflexivity. now contradiction Hne. }
  rewrite E. destruct (span_digits (String c s)) as [int_part after].
  cbv zeta.
  destruct int_part as [|d ds];
    [destruct (match after with
               | String "."%char rest => fst (span_digits rest)
               | _ => []
               end) as [|d ds]|];
    try (rewrite has_sign_not_below_zero by apply Number_of_ratio_sign; discriminate).
  rewrite ltb_nan_l by reflexivity. discriminate.
Qed.

(** X12.  [parseNumber] gives a number below zero only for a text whose
    first character among digits, points and minus signs is a minus
    sign: a minus sign further on, brackets or a trailing sign never make
    the amount negative. *)
Theorem parseNumber_negative (value : option string) :
  Js.lt (parseNumber value) 0%float = true ->
  exists s rest, value = Some s /\ cleaned s = String "-"%char rest.
Proof.
  unfold Js.lt, parseNumber. destruct value as [s|]; [|vm_compute; discriminate].
  destruct (String.eqb s ""); [vm_compute; discriminate|].
  unfold Js.or_default. destruct (Js.truthy (parseFloat (cleaned s)));
    [|vm_compute; discriminate].
  intros Hlt. destruct (parseFloat_sign _ Hlt) as [rest Hrest].
  now exists s, rest.
Qed.

(** The theorem on a negative amount with a currency sign. *)
Lemma parseNumber_negative_witness :
  parseNumber (Some "Rs -1,500") = (-1500)%float
  /\ exists s rest, Some "Rs -1,500" = Some s /\ cleaned s = String "-"%char rest.
Proof.
  split; [vm_compute; reflexivity|].
  apply (parseNumber_negative (Some "Rs -1,500")). vm_compute. reflexivity.
Defined.

(* ===================================================================== *)
(** * Input without a single claim *)
(* ===================================================================== *)

Section EmptyProperties.

Variable parseDateText : string -> option Date.
Variable toLocaleDateString : Date -> string.

(** X13.  On rows none of which has a TID, and so on no rows at all,
    [calculateProposalMetrics] returns: the claim counts and the
    claim-level totals are 0, the average length of stay and the average
    days to payment take the fallback 4, and the health score is 60. *)
Theorem metrics_without_claims (data : list RawRecord) :
  Forall (fun row => truthy_text (row !! "TID") = false) data ->
  exists m,
    calculateProposalMetrics parseDateText toLocaleDateString data = Normal m
    /\ Forall (fun x => x = 0%float)
         [ totalClaims m; paidClaims m; approvedClaims m; rejectedClaims m;
           pendingClaims m; claimsWithQuery m; claimsWithoutQuery m;
           totalClaimValue m; totalApprovedAmount m ]
    /\ avgLengthOfStay m = 4%float
    /\ avgDaysToPayment m = 4%float
    /\ healthScore m = 60%float.
Proof.
  intros Hdata.
  assert (Hgroup : groupDataByTID (preprocessMAAClaims parseDateText data) = Normal []).
  { unfold groupDataByTID. rewrite groupReduce_without_TID; [reflexivity|].
    unfold preprocessMAAClaims. apply List.Forall_forall. intros r Hr.
    apply List.in_map_iff in Hr. destruct Hr as (row & <- & Hrow).
    exact (proj1 (List.Forall_forall _ _) Hdata row Hrow). }
  eexists. split; [unfold calculateProposalMetrics; rewrite Hgroup; reflexivity|].
  split; [repeat constructor|]. split; [reflexivity|]. split; [reflexivity|].
  vm_compute. reflexivity.
Qed.

End EmptyProperties.

(** The theorem on a paid row that has no TID. *)
Lemma metrics_without_claims_witness :
  exists m,
    sampleMetrics [orphanPaidRow] = Normal m
    /\ Forall (fun x => x = 0%float)
         [ totalClaims m; paidClaims m; approvedClaims m; rejectedClaims m;
           pendingClaims m; claimsWithQuery m; claimsWithoutQuery m;
           totalClaimValue m; totalApprovedAmount m ]
    /\ avgLengthOfStay m = 4%float
    /\ avgDaysToPayment m = 4%float
    /\ healthScore m = 60%float.
Proof.
  apply (metrics_without_claims sampleDateText sampleLocaleDate [orphanPaidRow]).
  repeat constructor.
Defined.

(* ===================================================================== *)
(** * The outcome of the pipeline *)
(* ===================================================================== *)

Lemma default_if_missing_truthy (x d : float) :
  Js.truthy d = true -> Js.truthy (default_if_missing x d) = true.
Proof.
  intros Hd. unfold default_if_missing.
  destruct (Js.truthy x) eqn:Hx; simpl; [|exact Hd].
  destruct (Js.strict_eq x 0%float); [exact Hd | exact Hx].
Qed.

Section ProposalProperties.

Variable parseDateText : string -> option Date.
Variable toLocaleDateString : Date -> string.

Let process := processCSVForProposal parseDateText toLocaleDateString.

(** X14.  [processCSVForProposal] fails in four cases, each with its
    message: the file cannot be read or converted, the first sheet has no
    row, the first row lacks a required column, some TID names a
    property inherited from [Object.prototype]; in every other case it
    succeeds with the metrics of the rows, the two defaults applied, and
    the projections computed from these.  The message "No data found" of
    [validateMAAClaims] is never returned. *)
Theorem processCSVForProposal_outcome (sheet : Outcome (list RawRecord)) :
  match sheet with
  | Thrown message => process sheet = Failure ("Failed to parse CSV file: " ++ message)
  | Returned [] =>
      process sheet = Failure "Failed to parse CSV file: No data found in the file"
  | Returned (sampleRow :: rest) =>
      match missingColumns sampleRow with
      | _ :: _ =>
          process sheet
          = Failure ("Missing required columns: "
                     ++ Js.join ", " (missingColumns sampleRow))
      | [] =>
          if existsb JsObject.inherited
               (rowTIDs (preprocessMAAClaims parseDateText (sampleRow :: rest)))
          then process sheet
               = Failure "Cannot read properties of undefined (reading 'push')"
          else exists metrics,
                 calculateProposalMetrics parseDateText toLocaleDateString
                   (sampleRow :: rest) = Normal metrics
                 /\ process sheet
                    = Success (withDefaults metrics)
                              (calculateROIProjections (withDefaults metrics))
      end
  end
  /\ process sheet <> Failure "No data found".
Proof.
  assert (Hneq : forall message,
             Failure ("Failed to parse CSV file: " ++ message) <> Failure "No data found").
  { intros message H. vm_compute in H. discriminate. }
  unfold process, processCSVForProposal.
  destruct sheet as [[|sampleRow rest]|message]; simpl.
  - split; [reflexivity | discriminate].
  - unfold validateMAAClaims.
    destruct (missingColumns sampleRow) as [|col missing] eqn:Hmissing.
    + unfold calculateProposalMetrics, groupDataByTID.
      pose proof (groupReduce_outcome
                    (preprocessMAAClaims parseDateText (sampleRow :: rest))) as H.
      destruct (existsb JsObject.inherited _).
      * rewrite H. split; [reflexivity | discriminate].
      * destruct H as [acc ->]. split; [|discriminate]. eexists. split; reflexivity.
    + split; [reflexivity|]. intros H. vm_compute in H. discriminate.
  - split; [reflexivity | apply Hneq].
Qed.

(** X15.  The metrics of a success never have an average days to
    payment or an average claim amount that is 0 or NaN, so that the
    projections, which are computed from these metrics, use the average
    days to payment as it is, without their own fallback of 45. *)
Theorem processCSVForProposal_defaults (sheet : Outcome (list RawRecord))
        (metrics : MetricsSnapshot) (roi : ROIProjection) :
  process sheet = Success metrics roi ->
  Js.truthy (avgDaysToPayment metrics) = true
  /\ Js.truthy (averageClaimAmount metrics) = true
  /\ roi = calculateROIProjections metrics
  /\ collectionsOptimistic roi
     = (Js.or_default (totalClaimValue metrics) 5000000
        * (Js.Math_max 0 (avgDaysToPayment metrics - 30) / 365) * 0.12)%float.
Proof.
  unfold process, processCSVForProposal.
  destruct (parseCSVFile sheet) as [rawData|message]; [|discriminate].
  destruct (validateMAAClaims rawData); [|discriminate].
  destruct (calculateProposalMetrics _ _ rawData) as [m|message]; [|discriminate].
  intros [= <- <-].
  assert (Hdays : Js.truthy (avgDaysToPayment (withDefaults m)) = true)
    by (apply default_if_missing_truthy; reflexivity).
  split; [exact Hdays|].
  split; [apply default_if_missing_truthy; reflexivity|].
  split; [reflexivity|].
  unfold calculateROIProjections, collectionsOptimistic, Js.or_default at 2.
  now rewrite Hdays.
Qed.

End ProposalProperties.

(** The theorem on the sheet that holds the single paid row. *)
Lemma processCSVForProposal_defaults_witness :
  match processCSVForProposal sampleDateText sampleLocaleDate (Returned [paidRow]) with
  | Success metrics roi =>
      Js.truthy (avgDaysToPayment metrics) = true
      /\ Js.truthy (averageClaimAmount metrics) = true
  | Failure _ => False
  end.
Proof.
  destruct (processCSVForProposal sampleDateText sampleLocaleDate (Returned [paidRow]))
    as [metrics roi|message] eqn:H; [|vm_compute in H; discriminate].
  destruct (processCSVForProposal_defaults _ _ _ metrics roi H) as (H1 & H2 & _).
  now split.
Defined.

(* ===================================================================== *)
(** * The maxima of a claim *)
(* ===================================================================== *)

Lemma Math_max_not_below_r (a x : float) : (Js.Math_max a x <? x)%float = false.
Proof.
  unfold Js.Math_max.
  destruct (is_nan a || is_nan x) eqn:Hnan; [apply ltb_nan_l; reflexivity|].
  destruct (a <? x)%float eqn:Hax; [apply ltb_irrefl|].
  destruct (x <? a)%float eqn:Hxa; [exact Hax|].
  destruct (get_sign a); [apply ltb_irrefl | exact Hax].
Qed.

Lemma fold_Math_max_NaN (xs : list float) (a : float) :
  is_nan a = true -> is_nan (List.fold_left Js.Math_max xs a) = true.
Proof.
  revert a. induction xs as [|x xs IH]; intros a Ha; simpl; [exact Ha|].
  apply IH. unfold Js.Math_max. now rewrite Ha.
Qed.

Lemma ltb_false_through (a b c : float) :
  (is_nan b = true -> is_nan a = true) ->
  (a <? b)%float = false -> (b <? c)%float = false -> (a <? c)%float = false.
Proof.
  intros Hb Hab Hbc.
  destruct (is_nan a) eqn:Ha; [now apply ltb_nan_l|].
  destruct (is_nan c) eqn:Hc; [now apply ltb_nan_r|].
  destruct (is_nan b) eqn:Hb'; [discriminate (Hb eq_refl)|].
  now apply (ltb_false_trans a b c).
Qed.

(** The maximum that [Math.max] folds from [a] over [xs] is below
    neither [a] nor any element of [xs]. *)
Lemma fold_Math_max_bounds (xs : list float) :
  forall a,
    (List.fold_left Js.Math_max xs a <? a)%float = false
    /\ Forall (fun x => (List.fold_left Js.Math_max xs a <? x)%float = false) xs.
Proof.
  induction xs as [|x xs IH]; intros a; simpl.
  - split; [apply ltb_irrefl | constructor].
  - destruct (IH (Js.Math_max a x)) as [Hacc Hxs].
    assert (Hnan : is_nan (Js.Math_max a x) = true ->
                   is_nan (List.fold_left Js.Math_max xs (Js.Math_max a x)) = true)
      by apply fold_Math_max_NaN.
    split; [|constructor; [|exact Hxs]].
    + exact (ltb_false_through _ _ a Hnan Hacc (Math_max_not_below a x)).
    + exact (ltb_false_through _ _ x Hnan Hacc (Math_max_not_below_r a x)).
Qed.

(** X16.  The Query Raised and the Days to Payment of a claim are below
    the value of none of the rows of its TID, and Query Raised is not
    below 0. *)
Theorem claim_maxima (data : list Row.t) (claims : list Claim.t) :
  groupDataByTID data = Normal claims ->
  Forall (fun c =>
            Js.lt (Claim.Query_Raised c) 0%float = false
            /\ forall row,
                 In row data -> Row.TID row = Claim.TID c ->
                 Js.lt (Claim.Query_Raised c) (Row.Query_Raised row) = false
                 /\ Js.lt (Claim.Days_to_Payment c) (Row.Days_to_Payment row) = false)
         claims.
Proof.
  unfold groupDataByTID.
  destruct (groupReduce [] data) as [acc|msg] eqn:Hred; [|discriminate].
  intros [= <-]. apply values_Forall.
  eapply List.Forall_impl; [|exact (groupReduce_claims data acc Hred)].
  intros [tid c] (Hne & first & rest & Hrows & ->). simpl in *.
  destruct (claimOf_built first rest)
    as (Hcol & _ & _ & _ & _ & _ & _ & _ & Hquery & Hdays).
  unfold Js.lt. rewrite Hquery, Hdays.
  split; [apply fold_Math_max_bounds|].
  intros row Hin Htid.
  assert (Hrow : In row (first :: rest)).
  { rewrite <- Hrows. apply List.filter_In. split; [exact Hin|].
    rewrite Htid. unfold Claim.TID. rewrite Hcol.
    pose proof (rowsOf_TID tid data) as Hfirst.
    rewrite Hrows in Hfirst. apply Forall_inv in Hfirst.
    unfold Row.TID in Hfirst. rewrite Hfirst. apply String.eqb_refl. }
  split.
  - exact (proj1 (List.Forall_forall _ _)
             (proj2 (fold_Math_max_bounds _ _)) _
             (List.in_map Row.Query_Raised _ _ Hrow)).
  - exact (proj1 (List.Forall_forall _ _)
             (proj2 (fold_Math_max_bounds _ _)) _
             (List.in_map Row.Days_to_Payment _ _ Hrow)).
Qed.

(** The theorem on two rows of one TID and a row of another. *)
Lemma claim_maxima_witness :
  on_completion (groupDataByTID (preprocessMAAClaims sampleDateText queriedRows))
    (Forall (fun c =>
               Js.lt (Claim.Query_Raised c) 0%float = false
               /\ forall row,
                    In row (preprocessMAAClaims sampleDateText queriedRows) ->
                    Row.TID row = Claim.TID c ->
                    Js.lt (Claim.Query_Raised c) (Row.Query_Raised row) = false
                    /\ Js.lt (Claim.Days_to_Payment c) (Row.Days_to_Payment row)
                       = false)).
Proof.
  destruct (groupDataByTID (preprocessMAAClaims sampleDateText queriedRows))
    as [claims|msg] eqn:Hgroup; [|vm_compute in Hgroup; discriminate].
  exact (claim_maxima _ claims Hgroup).
Defined.
